(** * hand-to-excalidraw: the conversion workflow of [App.jsx]

    A shallow embedding of the React component [App] (frontend/src/App.jsx)
    and of its child [TextInputZone], followed by the properties of the
    workflow state machine.

    The component's hooks are the fields of one record; every event handler
    is a function on that record extended with the part of the browser the
    handlers act on: the registry of object URLs, the interval timers, the
    fetches that were issued and the ones still outstanding.  An [async]
    handler is cut at its [await]s: the synchronous prefix is one function,
    each continuation another, run when the environment delivers the awaited
    value. *)

From Stdlib Require Import List NArith Bool Lia.
From Stdlib Require Import Ascii String DecimalString.
Import ListNotations.
Set Warnings "-register-all".
Local Open Scope N_scope.
Local Open Scope list_scope.

(* ================================================================== *)
(** ** JavaScript strings *)

(** A JavaScript string is a sequence of UTF-16 code units. *)
Definition jsstring := list N.

(** An ASCII literal of the source, as code units. *)
Definition lit (s : string) : jsstring :=
  map N_of_ascii (list_ascii_of_string s).

Fixpoint str_eqb (a b : jsstring) : bool :=
  match a, b with
  | [], [] => true
  | x :: a', y :: b' => (x =? y) && str_eqb a' b'
  | _, _ => false
  end.

(** [Array.prototype.includes] on an array of strings. *)
Definition includes (l : list jsstring) (s : jsstring) : bool :=
  existsb (str_eqb s) l.

(** ECMAScript WhiteSpace and LineTerminator code points, the ones
    [String.prototype.trim] strips. *)
Definition isWhiteSpace (c : N) : bool :=
  (c =? 9) || (c =? 10) || (c =? 11) || (c =? 12) || (c =? 13) || (c =? 32)
  || (c =? 160) || (c =? 5760) || ((8192 <=? c) && (c <=? 8202))
  || (c =? 8232) || (c =? 8233) || (c =? 8239) || (c =? 8287)
  || (c =? 12288) || (c =? 65279).

Fixpoint trimStart (s : jsstring) : jsstring :=
  match s with
  | [] => []
  | c :: s' => if isWhiteSpace c then trimStart s' else s
  end.

Definition trimEnd (s : jsstring) : jsstring := rev (trimStart (rev s)).

Definition trim (s : jsstring) : jsstring := trimEnd (trimStart s).

(** A string is truthy when it is not empty. *)
Definition nonEmpty (s : jsstring) : bool :=
  match s with [] => false | _ :: _ => true end.

(** [`${n}`] for a non-negative integer. *)
Definition decimal (n : N) : jsstring :=
  lit (NilEmpty.string_of_uint (N.to_uint n)).

(* ================================================================== *)
(** ** JSON values, as [response.json()] produces them *)

(** A number is carried by its [Number::toString] form: the handlers only
    test a number for truthiness and convert it to a string, and the two
    zeros, the only falsy numbers JSON can denote, both print as ["0"].
    An object is the list of its own properties. *)
Inductive json :=
| JNull
| JBool (b : bool)
| JNum (repr : jsstring)
| JStr (s : jsstring)
| JArr (items : list json)
| JObj (props : list (jsstring * json)).

(** The outcome of a property read [v.key]. *)
Inductive lookup :=
| Threw        (* TypeError: [v] is null *)
| Undefined
| Val (v : json).

Fixpoint assoc (key : jsstring) (props : list (jsstring * json)) : lookup :=
  match props with
  | [] => Undefined
  | (k, v) :: rest => if str_eqb key k then Val v else assoc key rest
  end.

(** [v.key] for the two keys the handlers read, [success] and [detail];
    neither is a member of a primitive wrapper, of [Array.prototype] or of
    [Object.prototype]. *)
Definition getProp (v : json) (key : jsstring) : lookup :=
  match v with
  | JNull => Threw
  | JObj props => assoc key props
  | _ => Undefined
  end.

Definition truthy (v : json) : bool :=
  match v with
  | JNull => false
  | JBool b => b
  | JNum repr => negb (str_eqb repr (lit "0"))
  | JStr s => nonEmpty s
  | JArr _ | JObj _ => true
  end.

Definition truthyLookup (r : lookup) : bool :=
  match r with
  | Val v => truthy v
  | _ => false
  end.

Fixpoint join (sep : jsstring) (parts : list jsstring) : jsstring :=
  match parts with
  | [] => []
  | [p] => p
  | p :: rest => p ++ sep ++ join sep rest
  end.

(** ToString, which [new Error(message)] applies to its argument; [None]
    when the conversion throws a TypeError.  An object is converted by its
    [toString] method: an object that has no own key [toString] inherits
    the one that answers ["[object Object]"]; one that has such a key holds
    a value that cannot be called, and the [valueOf] that is tried next
    does not answer a primitive, so the conversion throws.  An array joins
    the conversions of its elements, [null] counting as the empty
    string. *)
Fixpoint toString (v : json) : option jsstring :=
  match v with
  | JNull => Some (lit "null")
  | JBool true => Some (lit "true")
  | JBool false => Some (lit "false")
  | JNum repr => Some repr
  | JStr s => Some s
  | JArr items =>
      option_map (join (lit ","))
        ((fix each (l : list json) : option (list jsstring) :=
            match l with
            | [] => Some []
            | JNull :: l' => option_map (cons []) (each l')
            | x :: l' =>
                match toString x, each l' with
                | Some s, Some rest => Some (s :: rest)
                | _, _ => None
                end
            end) items)
  | JObj props =>
      match assoc (lit "toString") props with
      | Undefined => Some (lit "[object Object]")
      | _ => None
      end
  end.

(* ================================================================== *)
(** ** The component's data *)

(** [const STATES]. *)
Inductive STATES := IDLE | PREVIEW | PROCESSING | DONE | ERROR.

Definition STATES_eqb (a b : STATES) : bool :=
  match a, b with
  | IDLE, IDLE | PREVIEW, PREVIEW | PROCESSING, PROCESSING
  | DONE, DONE | ERROR, ERROR => true
  | _, _ => false
  end.

(** [inputMode]: ['image' | 'text']. *)
Inductive InputMode := image | text_mode.

(** [const PROCESSING_STEPS]; each entry starts with an emoji, written here
    by its code units. *)
Definition PROCESSING_STEPS : list jsstring :=
  [ [55357; 56589] ++ lit " Analyzing your flowchart...";
    [55358; 56598] ++ lit " Extracting shapes & text...";
    [55357; 56528] ++ lit " Detecting connections & arrows...";
    [55357; 56615] ++ lit " Building Excalidraw elements...";
    [10024] ++ lit " Almost there..." ].

(** The metadata of a DOM [File] that the component reads. *)
Record File := mkFile {
  type : jsstring;
  size : N;
  name : jsstring
}.

(** What a [fetch] was called with. *)
Inductive request :=
| PostConvert (body : File)           (* POST /api/convert, multipart [file] *)
| PostConvertText (body : jsstring).  (* POST /api/convert-text, [{text}] *)

(** Where a started attempt is suspended. *)
Inductive phase :=
| AwaitFetch                  (* at [await fetch(...)] *)
| AwaitJson (status : N).     (* at [await response.json()] *)

(** A started conversion attempt, named by the interval its closure holds in
    [stepInterval]. *)
Record attempt := mkAttempt {
  stepInterval : N;
  at_ : phase
}.

(** The hooks of [App], the [text] hook of [TextInputZone], and the browser
    state the handlers touch. *)
Record config := mkConfig {
  state : STATES;
  inputMode : InputMode;
  file : option File;
  preview : option N;
  result : json;                 (* [null] is [JNull] *)
  error : jsstring;
  processingStep : N;
  previewFailed : bool;
  text : jsstring;               (* TextInputZone *)
  objectURLs : list N;           (* created and not revoked *)
  nextURL : N;
  intervals : list N;            (* set and not cleared *)
  nextInterval : N;
  pending : list attempt;        (* attempts suspended at an [await] *)
  requests : list request        (* every [fetch] issued, oldest first *)
}.

(** The first render. *)
Definition init : config :=
  {| state := IDLE; inputMode := image; file := None; preview := None;
     result := JNull; error := []; processingStep := 0;
     previewFailed := false; text := [];
     objectURLs := []; nextURL := 0; intervals := []; nextInterval := 0;
     pending := []; requests := [] |}.

(* ================================================================== *)
(** ** State setters and browser primitives *)

Definition setState (v : STATES) (c : config) : config :=
  mkConfig v (inputMode c) (file c) (preview c) (result c) (error c)
    (processingStep c) (previewFailed c) (text c) (objectURLs c) (nextURL c)
    (intervals c) (nextInterval c) (pending c) (requests c).

Definition setInputMode (v : InputMode) (c : config) : config :=
  mkConfig (state c) v (file c) (preview c) (result c) (error c)
    (processingStep c) (previewFailed c) (text c) (objectURLs c) (nextURL c)
    (intervals c) (nextInterval c) (pending c) (requests c).

Definition setFile (v : option File) (c : config) : config :=
  mkConfig (state c) (inputMode c) v (preview c) (result c) (error c)
    (processingStep c) (previewFailed c) (text c) (objectURLs c) (nextURL c)
    (intervals c) (nextInterval c) (pending c) (requests c).

Definition setPreview (v : option N) (c : config) : config :=
  mkConfig (state c) (inputMode c) (file c) v (result c) (error c)
    (processingStep c) (previewFailed c) (text c) (objectURLs c) (nextURL c)
    (intervals c) (nextInterval c) (pending c) (requests c).

Definition setResult (v : json) (c : config) : config :=
  mkConfig (state c) (inputMode c) (file c) (preview c) v (error c)
    (processingStep c) (previewFailed c) (text c) (objectURLs c) (nextURL c)
    (intervals c) (nextInterval c) (pending c) (requests c).

Definition setError (v : jsstring) (c : config) : config :=
  mkConfig (state c) (inputMode c) (file c) (preview c) (result c) v
    (processingStep c) (previewFailed c) (text c) (objectURLs c) (nextURL c)
    (intervals c) (nextInterval c) (pending c) (requests c).

Definition setProcessingStep (v : N) (c : config) : config :=
  mkConfig (state c) (inputMode c) (file c) (preview c) (result c) (error c)
    v (previewFailed c) (text c) (objectURLs c) (nextURL c)
    (intervals c) (nextInterval c) (pending c) (requests c).

Definition setPreviewFailed (v : bool) (c : config) : config :=
  mkConfig (state c) (inputMode c) (file c) (preview c) (result c) (error c)
    (processingStep c) v (text c) (objectURLs c) (nextURL c)
    (intervals c) (nextInterval c) (pending c) (requests c).

Definition setText (v : jsstring) (c : config) : config :=
  mkConfig (state c) (inputMode c) (file c) (preview c) (result c) (error c)
    (processingStep c) (previewFailed c) v (objectURLs c) (nextURL c)
    (intervals c) (nextInterval c) (pending c) (requests c).

Definition setPending (v : list attempt) (c : config) : config :=
  mkConfig (state c) (inputMode c) (file c) (preview c) (result c) (error c)
    (processingStep c) (previewFailed c) (text c) (objectURLs c) (nextURL c)
    (intervals c) (nextInterval c) v (requests c).

(** [URL.createObjectURL]: a handle no earlier call returned. *)
Definition createObjectURL (c : config) : N * config :=
  (nextURL c,
   mkConfig (state c) (inputMode c) (file c) (preview c) (result c) (error c)
     (processingStep c) (previewFailed c) (text c)
     (objectURLs c ++ [nextURL c]) (N.succ (nextURL c))
     (intervals c) (nextInterval c) (pending c) (requests c)).

(** [URL.revokeObjectURL]; revoking a handle that is not live does nothing. *)
Definition revokeObjectURL (u : N) (c : config) : config :=
  mkConfig (state c) (inputMode c) (file c) (preview c) (result c) (error c)
    (processingStep c) (previewFailed c) (text c)
    (filter (fun v => negb (v =? u)) (objectURLs c)) (nextURL c)
    (intervals c) (nextInterval c) (pending c) (requests c).

(** [setInterval(..., 3000)]: the new timer's id. *)
Definition setInterval (c : config) : N * config :=
  (nextInterval c,
   mkConfig (state c) (inputMode c) (file c) (preview c) (result c) (error c)
     (processingStep c) (previewFailed c) (text c) (objectURLs c) (nextURL c)
     (intervals c ++ [nextInterval c]) (N.succ (nextInterval c))
     (pending c) (requests c)).

(** [clearInterval]; clearing a timer twice does nothing the second time. *)
Definition clearInterval (t : N) (c : config) : config :=
  mkConfig (state c) (inputMode c) (file c) (preview c) (result c) (error c)
    (processingStep c) (previewFailed c) (text c) (objectURLs c) (nextURL c)
    (filter (fun v => negb (v =? t)) (intervals c)) (nextInterval c)
    (pending c) (requests c).

(** [await fetch(...)] inside the attempt that holds [stepInterval]: the
    request goes out and the attempt is suspended. *)
Definition fetch (req : request) (stepInterval : N) (c : config) : config :=
  mkConfig (state c) (inputMode c) (file c) (preview c) (result c) (error c)
    (processingStep c) (previewFailed c) (text c) (objectURLs c) (nextURL c)
    (intervals c) (nextInterval c)
    (pending c ++ [mkAttempt stepInterval AwaitFetch])
    (requests c ++ [req]).

(** The suspended attempt that holds interval [t], if there is one. *)
Definition findAttempt (t : N) (c : config) : option attempt :=
  find (fun a => stepInterval a =? t) (pending c).

Definition dropAttempt (t : N) (c : config) : config :=
  setPending (filter (fun a => negb (stepInterval a =? t)) (pending c)) c.

Definition suspend (t : N) (p : phase) (c : config) : config :=
  setPending (map (fun a => if stepInterval a =? t then mkAttempt t p else a)
                  (pending c)) c.

(* ================================================================== *)
(** ** The handlers of [App] *)

Definition validTypes : list jsstring :=
  [lit "image/jpeg"; lit "image/png"; lit "image/webp"; lit "image/heic";
   lit "image/bmp"].

(** [handleFileSelected], App.jsx 36-56. *)
Definition handleFileSelected (selectedFile : File) (c : config) : config :=
  if negb (includes validTypes (type selectedFile)) then
    let c := setError (lit "Please upload a JPG, PNG, or WebP image.") c in
    setState ERROR c
  else if 20 * 1024 * 1024 <? size selectedFile then
    let c := setError (lit "Image is too large. Maximum size is 20MB.") c in
    setState ERROR c
  else
    let c := setFile (Some selectedFile) c in
    let (url, c) := createObjectURL c in
    let c := setPreview (Some url) c in
    let c := setPreviewFailed false c in
    setState PREVIEW c.

(** The callback given to [setInterval], App.jsx 65-69 and 106-110; it runs
    only while its timer is set. *)
Definition tick (t : N) (c : config) : config :=
  if existsb (N.eqb t) (intervals c) then
    let prev := processingStep c in
    setProcessingStep
      (if prev <? N.of_nat (List.length PROCESSING_STEPS) - 1
       then prev + 1 else prev) c
  else c.

(** [handleConvert] up to its first [await], App.jsx 58-78. *)
Definition handleConvert (c : config) : config :=
  match file c with
  | None => c
  | Some f =>
      let c := setState PROCESSING c in
      let c := setProcessingStep 0 c in
      let (stepInterval, c) := setInterval c in
      fetch (PostConvert f) stepInterval c
  end.

(** [handleTextConvert] up to its first [await], App.jsx 102-119. *)
Definition handleTextConvert (text : jsstring) (c : config) : config :=
  let c := setState PROCESSING c in
  let c := setProcessingStep 0 c in
  let (stepInterval, c) := setInterval c in
  fetch (PostConvertText text) stepInterval c.

(** [handleReset], App.jsx 143-150. *)
Definition handleReset (c : config) : config :=
  let c := match preview c with
           | Some u => revokeObjectURL u c
           | None => c
           end in
  let c := setFile None c in
  let c := setPreview None c in
  let c := setResult JNull c in
  let c := setError [] c in
  setState IDLE c.

(** [response.ok]. *)
Definition ok (status : N) : bool := (200 <=? status) && (status <=? 299).

(** What [await response.json()] resumes with. *)
Inductive parsed :=
| Parsed (data : json)
| SyntaxError (message : jsstring).   (* the promise rejected *)

(** The messages of the TypeErrors the JavaScript engine throws on the
    handlers' behalf; their wording differs between engines. *)
Record Engine := mkEngine {
  nullReadMessage : jsstring -> jsstring;   (* for [null.key] *)
  toPrimitiveMessage : jsstring             (* for a failed ToString *)
}.

Section Continuations.

Variable engine : Engine.

(** The [catch] block, App.jsx 95-99 and 136-140, entered with
    [err.message]. *)
Definition catchBlock (stepInterval : N) (message : jsstring) (c : config)
  : config :=
  let c := clearInterval stepInterval c in
  let c := setError
             (if nonEmpty message then message
              else lit "Something went wrong. Please try again.") c in
  setState ERROR c.

(** The [fetch] promise of the attempt holding [t] fulfils with a response
    of the given status: App.jsx 80 (121), then [response.json()] is called
    on either branch of [if (!response.ok)] and awaited. *)
Definition fetchFulfilled (t : N) (status : N) (c : config) : config :=
  match findAttempt t c with
  | Some (mkAttempt _ AwaitFetch) =>
      let c := clearInterval t c in
      suspend t (AwaitJson status) c
  | _ => c
  end.

(** The [fetch] promise rejects (no response): control enters [catch]. *)
Definition fetchRejected (t : N) (message : jsstring) (c : config)
  : config :=
  match findAttempt t c with
  | Some (mkAttempt _ AwaitFetch) => catchBlock t message (dropAttempt t c)
  | _ => c
  end.

(** App.jsx 82-85 (123-126) after [response.json().catch(() => ({}))]
    settled. *)
Definition notOk (t : N) (status : N) (body : parsed) (c : config)
  : config :=
  let errData := match body with
                 | Parsed d => d
                 | SyntaxError _ => JObj []
                 end in
  match getProp errData (lit "detail") with
  | Threw => catchBlock t (nullReadMessage engine (lit "detail")) c
  | Val detail =>
      if truthy detail then
        match toString detail with
        | Some message => catchBlock t message c
        | None => catchBlock t (toPrimitiveMessage engine) c
        end
      else catchBlock t (lit "Server error (" ++ decimal status ++ lit ")") c
  | Undefined =>
      catchBlock t (lit "Server error (" ++ decimal status ++ lit ")") c
  end.

(** App.jsx 87-94 (128-135) after [await response.json()] settled. *)
Definition isOk (t : N) (body : parsed) (c : config) : config :=
  match body with
  | SyntaxError message => catchBlock t message c
  | Parsed data =>
      match getProp data (lit "success") with
      | Threw => catchBlock t (nullReadMessage engine (lit "success")) c
      | success =>
          if truthyLookup success then
            let c := setResult data c in
            setState DONE c
          else catchBlock t (lit "Conversion failed. Please try again.") c
      end
  end.

(** The [response.json()] promise of the attempt holding [t] settles. *)
Definition jsonSettled (t : N) (body : parsed) (c : config) : config :=
  match findAttempt t c with
  | Some (mkAttempt _ (AwaitJson status)) =>
      let c := dropAttempt t c in
      if negb (ok status) then notOk t status body c else isOk t body c
  | _ => c
  end.

End Continuations.

(* ================================================================== *)
(** ** [TextInputZone] *)

(** [handleSubmit], TextInputZone 6-10; [onTextSubmit] is the prop. *)
Definition handleSubmit (onTextSubmit : jsstring -> config -> config)
    (c : config) : config :=
  if nonEmpty (trim (text c)) then onTextSubmit (text c) c else c.

(** The button's [disabled={!text.trim()}], TextInputZone 30. *)
Definition disabled (c : config) : bool := negb (nonEmpty (trim (text c))).

(* ================================================================== *)
(** ** The rendered component as an event system *)

(** What can happen to a mounted [App]: a control of the current render is
    used, a timer fires, or a promise an attempt awaits settles.
    [UploadZone] and [ResultPanel] are children whose only effect on [App]
    is to call the prop they were given, which they can do while they are
    rendered. *)
Inductive event :=
| ClickMode (m : InputMode)         (* the two mode buttons *)
| FileSelected (f : File)           (* UploadZone calls [onFileSelected] *)
| ClickConvert                      (* the Convert button *)
| ClickReset                        (* the clear button, ResultPanel's
                                       [onReset], the Try Again button *)
| ImgError                          (* [onError] of the preview image *)
| ChangeText (s : jsstring)         (* [onChange] of the textarea *)
| ClickSubmit                       (* the Convert Text button *)
| Tick (t : N)
| FetchFulfilled (t : N) (status : N)
| FetchRejected (t : N) (message : jsstring)
| JsonSettled (t : N) (body : parsed).

Definition isSome {A} (o : option A) : bool :=
  match o with Some _ => true | None => false end.

Definition isImage (m : InputMode) : bool :=
  match m with image => true | text_mode => false end.

(** The JSX conditions of App.jsx 170-260. *)
Definition rendersModeSwitcher (c : config) : bool :=
  STATES_eqb (state c) IDLE.

Definition rendersUploadZone (c : config) : bool :=
  (STATES_eqb (state c) IDLE && isImage (inputMode c))
  || (STATES_eqb (state c) PREVIEW && isImage (inputMode c) && isSome (file c)).

Definition rendersTextInputZone (c : config) : bool :=
  STATES_eqb (state c) IDLE && negb (isImage (inputMode c)).

Definition rendersPreviewCard (c : config) : bool :=
  STATES_eqb (state c) PREVIEW && isImage (inputMode c) && isSome (file c).

Definition rendersResultPanel (c : config) : bool :=
  STATES_eqb (state c) DONE && truthy (result c).

Definition rendersErrorCard (c : config) : bool :=
  STATES_eqb (state c) ERROR.

Definition awaits (t : N) (c : config) : option phase :=
  match findAttempt t c with
  | Some a => Some (at_ a)
  | None => None
  end.

(** An event can occur when the control it comes from is rendered (and, for
    a button, not disabled), the timer is set, or the promise is awaited. *)
Definition enabled (e : event) (c : config) : bool :=
  match e with
  | ClickMode _ => rendersModeSwitcher c
  | FileSelected _ => rendersUploadZone c
  | ClickConvert => rendersPreviewCard c
  | ClickReset =>
      rendersPreviewCard c || rendersResultPanel c || rendersErrorCard c
  | ImgError => rendersPreviewCard c && negb (previewFailed c)
  | ChangeText _ => rendersTextInputZone c
  | ClickSubmit => rendersTextInputZone c && negb (disabled c)
  | Tick t => existsb (N.eqb t) (intervals c)
  | FetchFulfilled t _ | FetchRejected t _ =>
      match awaits t c with Some AwaitFetch => true | _ => false end
  | JsonSettled t _ =>
      match awaits t c with Some (AwaitJson _) => true | _ => false end
  end.

(** The hook of [TextInputZone] lives as long as the component is mounted
    and starts from [''] on every mount. *)
Definition render (c : config) : config :=
  if rendersTextInputZone c then c else setText [] c.

Section Workflow.

Variable engine : Engine.

Definition handle (e : event) (c : config) : config :=
  match e with
  | ClickMode m => setInputMode m c
  | FileSelected f => handleFileSelected f c
  | ClickConvert => handleConvert c
  | ClickReset => handleReset c
  | ImgError => setPreviewFailed true c
  | ChangeText s => setText s c
  | ClickSubmit => handleSubmit handleTextConvert c
  | Tick t => tick t c
  | FetchFulfilled t status => fetchFulfilled t status c
  | FetchRejected t message => fetchRejected t message c
  | JsonSettled t body => jsonSettled engine t body c
  end.

Definition step (e : event) (c : config) : config := render (handle e c).

(** The state after a sequence of events, when each could occur. *)
Fixpoint run (tr : list event) (c : config) : option config :=
  match tr with
  | [] => Some c
  | e :: tr' => if enabled e c then run tr' (step e c) else None
  end.

End Workflow.

(** The TypeError wording of V8. *)
Definition v8 : Engine :=
  {| nullReadMessage := fun key =>
       lit "Cannot read properties of null (reading '" ++ key ++ lit "')";
     toPrimitiveMessage := lit "Cannot convert object to primitive value" |}.

(** Validation as the specification words it, for comparison with
    [handleFileSelected]. *)
Definition accepted (f : File) : bool :=
  includes validTypes (type f) && negb (20 * 1024 * 1024 <? size f).

(** Whether a valid image was selected since the last reset, along a trace
    that starts with [held]. *)
Fixpoint acceptedSinceReset (tr : list event) (held : bool) : bool :=
  match tr with
  | [] => held
  | FileSelected f :: tr' => acceptedSinceReset tr' (held || accepted f)
  | ClickReset :: tr' => acceptedSinceReset tr' false
  | _ :: tr' => acceptedSinceReset tr' held
  end.

(** Sample inputs. *)
Definition png2MB : File :=
  mkFile (lit "image/png") (2 * 1024 * 1024) (lit "flow.png").
Definition jpeg1k : File := mkFile (lit "image/jpeg") 1024 (lit "b.jpg").
Definition pdf : File := mkFile (lit "application/pdf") 1000 (lit "doc.pdf").
Definition payload : json :=
  JObj [(lit "success", JBool true); (lit "elements", JArr [])].

(* ================================================================== *)
(** ** Predicates used by the statements *)

(** The events that come from a control of the page, as opposed to a timer
    or the network. *)
Definition userAction (e : event) : bool :=
  match e with
  | ClickMode _ | FileSelected _ | ClickConvert | ClickReset | ImgError
  | ChangeText _ | ClickSubmit => true
  | Tick _ | FetchFulfilled _ _ | FetchRejected _ _ | JsonSettled _ _ => false
  end.

(** What every render of [App] satisfies; [consistent_step] below shows that
    each event keeps it. *)
Record consistent (c : config) : Prop := {
  idle_no_file : state c = IDLE -> file c = None;
  preview_file : state c = PREVIEW -> file c <> None;
  result_done : result c <> JNull <-> state c = DONE;
  error_failed : error c <> [] <-> state c = ERROR;
  file_image : file c <> None -> inputMode c = image;
  processing_image :
    state c = PROCESSING -> inputMode c = image -> file c <> None;
  one_attempt :
    match pending c with
    | [] => state c <> PROCESSING
    | [_] => state c = PROCESSING
    | _ => False
    end
}.

(** The continuations and the timer callback touch neither the selection,
    nor the object URLs, nor the list of issued requests. *)
Definition sameInput (c c' : config) : Prop :=
  file c' = file c /\ preview c' = preview c /\
  objectURLs c' = objectURLs c /\ requests c' = requests c.

(* ================================================================== *)
(** ** The size shown in the preview card *)

(** [(num / den).toFixed(1)] for an integer [num] below 2^53 and a power of
    two [den] with [den <= num]: the quotient is then computed without
    rounding, and [toFixed] prints the tenth nearest to its exact value, the
    larger one on a tie, as integer part, point and one digit. *)
Definition toFixed1 (num den : N) : jsstring :=
  let n := (20 * num + den) / (2 * den) in
  decimal (n / 10) ++ lit "." ++ decimal (n mod 10).

(** [formatFileSize], App.jsx 152-156, on the size of a [File]. *)
Definition formatFileSize (bytes : N) : jsstring :=
  if bytes <? 1024 then decimal bytes ++ lit " B"
  else if bytes <? 1024 * 1024 then toFixed1 bytes 1024 ++ lit " KB"
  else toFixed1 bytes (1024 * 1024) ++ lit " MB".

(* ================================================================== *)
(** ** More predicates used by the statements *)

(** The edges of the state machine: which state an event can lead to from
    which. *)
Definition transition (a b : STATES) : bool :=
  match a, b with
  | IDLE, (IDLE | PREVIEW | PROCESSING | ERROR) => true
  | PREVIEW, (PREVIEW | PROCESSING | ERROR | IDLE) => true
  | PROCESSING, (PROCESSING | DONE | ERROR) => true
  | DONE, IDLE => true
  | ERROR, IDLE => true
  | _, _ => false
  end.

(** The events that start a conversion attempt. *)
Definition startsAttempt (e : event) : bool :=
  match e with
  | ClickConvert | ClickSubmit => true
  | _ => false
  end.



(** The index of the last entry of [PROCESSING_STEPS]. *)
Definition lastStep : N := N.of_nat (List.length PROCESSING_STEPS) - 1.

(** What the resources of a render satisfy, beside [consistent]. *)
Record coherent (c : config) : Prop := {
  preview_with_file : isSome (preview c) = isSome (file c);
  file_accepted : forall f, file c = Some f -> accepted f = true;
  preview_live : forall u, preview c = Some u -> In u (objectURLs c);
  cursor_bound : processingStep c <= lastStep;
  one_timer :
    intervals c =
    match pending c with
    | [mkAttempt t AwaitFetch] => [t]
    | _ => []
    end;
  done_payload :
    state c = DONE ->
    exists props,
      result c = JObj props /\
      truthyLookup (assoc (lit "success") props) = true;
  uploads_accepted :
    forall f, In (PostConvert f) (requests c) -> accepted f = true;
  in_flight :
    state c = PROCESSING ->
    exists earlier r,
      requests c = earlier ++ [r] /\
      match file c with
      | Some f => r = PostConvert f
      | None => exists s, r = PostConvertText s
      end;
  timer_per_request : nextInterval c = N.of_nat (List.length (requests c))
}.

(* ================================================================== *)
(** * Properties *)

(* ================================================================== *)
(** ** Strings *)

Lemma str_eqb_eq (a b : jsstring) : str_eqb a b = true <-> a = b.
Proof.
  revert b; induction a as [|x a IH]; intros [|y b]; simpl;
    try (split; [discriminate | discriminate]); try tauto.
  rewrite andb_true_iff, N.eqb_eq, IH.
  split; [intros [-> ->]; reflexivity | intros [= -> ->]; auto].
Qed.

Lemma includes_In (l : list jsstring) (s : jsstring) :
  includes l s = true <-> In s l.
Proof.
  unfold includes. rewrite existsb_exists. split.
  - intros (x & Hx & E). apply str_eqb_eq in E. now subst.
  - intros H. exists s. split; [assumption | now apply str_eqb_eq].
Qed.

(** The ways through [errData.detail || ...] and [new Error(...)]. *)
Ltac detail_cases :=
  destruct (getProp _ _) as [| |d];
  [| |destruct (truthy d); [destruct (toString d)|]].

Lemma nonEmpty_true (s : jsstring) : nonEmpty s = true <-> s <> [].
Proof. destruct s; simpl; split; congruence. Qed.

Lemma nonEmpty_false (s : jsstring) : nonEmpty s = false <-> s = [].
Proof. destruct s; simpl; split; congruence. Qed.

Lemma trimStart_whitespace (s : jsstring) :
  trimStart s = [] <-> forallb isWhiteSpace s = true.
Proof.
  induction s as [|c s IH]; simpl; [tauto|].
  destruct (isWhiteSpace c); simpl; [exact IH | split; discriminate].
Qed.

(** [trim] leaves nothing exactly when every code unit is white space. *)
Lemma trim_whitespace (s : jsstring) :
  trim s = [] <-> forallb isWhiteSpace s = true.
Proof.
  unfold trim, trimEnd. split.
  - intros H.
    assert (E : trimStart (rev (trimStart s)) = []).
    { destruct (trimStart (rev (trimStart s))) as [|x l] eqn:E; [reflexivity|].
      simpl in H. now destruct (rev l). }
    destruct (trimStart s) as [|c s'] eqn:Es.
    + now apply trimStart_whitespace.
    + exfalso. apply trimStart_whitespace in E.
      rewrite forallb_forall in E.
      assert (W : isWhiteSpace c = true)
        by (apply E, in_rev; rewrite rev_involutive; now left).
      clear E. induction s as [|d s IH]; simpl in Es; [discriminate|].
      destruct (isWhiteSpace d) eqn:Ed; [auto|].
      injection Es as -> ->. congruence.
  - intros H. apply trimStart_whitespace in H. now rewrite H.
Qed.

(* ================================================================== *)
(** ** The invariant of the rendered workflow *)

Lemma consistent_init : consistent init.
Proof. split; simpl; try congruence; split; congruence. Qed.

Lemma consistent_render (c : config) : consistent c -> consistent (render c).
Proof.
  unfold render. destruct (rendersTextInputZone c); [auto|].
  intros [H1 H2 H3 H4 H6 H7 H5]. split; assumption.
Qed.

Lemma STATES_eqb_eq (a b : STATES) : STATES_eqb a b = true <-> a = b.
Proof. destruct a, b; simpl; split; congruence. Qed.

Lemma catchBlock_error t m c : error (catchBlock t m c) <> [].
Proof. simpl. destruct m; discriminate. Qed.



Lemma no_result (c : config) :
  consistent c -> state c <> DONE -> result c = JNull.
Proof.
  intros C S. destruct (result c) eqn:R; auto; exfalso;
    apply S, (result_done c C); congruence.
Qed.

Lemma no_error (c : config) :
  consistent c -> state c <> ERROR -> error c = [].
Proof.
  intros C S. destruct (error c) eqn:E; auto; exfalso;
    apply S, (error_failed c C); congruence.
Qed.

Lemma no_attempt (c : config) :
  consistent c -> state c <> PROCESSING -> pending c = [].
Proof.
  intros C S. pose proof (one_attempt c C) as H.
  destruct (pending c) as [|a [|b l]]; auto; contradiction.
Qed.

(** An awaited promise belongs to the one attempt of a Processing state. *)
Lemma awaited (c : config) (t : N) (p : phase) :
  consistent c -> awaits t c = Some p ->
  state c = PROCESSING /\ pending c = [mkAttempt t p].
Proof.
  intros C. pose proof (one_attempt c C) as H.
  unfold awaits, findAttempt.
  destruct (pending c) as [|[i q] [|b l]]; simpl; try discriminate;
    [|contradiction].
  destruct (i =? t) eqn:E; [|discriminate].
  apply N.eqb_eq in E. intros [= ->]. now subst.
Qed.

Lemma findAttempt_only (c : config) (t : N) (p : phase) :
  pending c = [mkAttempt t p] -> findAttempt t c = Some (mkAttempt t p).
Proof.
  intros P. unfold findAttempt. rewrite P. cbn [find stepInterval].
  now rewrite N.eqb_refl.
Qed.

Lemma dropAttempt_only (c : config) (t : N) (p : phase) :
  pending c = [mkAttempt t p] -> pending (dropAttempt t c) = [].
Proof.
  intros P. unfold dropAttempt, setPending. cbn [pending]. rewrite P.
  cbn [filter stepInterval]. now rewrite N.eqb_refl.
Qed.

Lemma suspend_only (c : config) (t : N) (p q : phase) :
  pending c = [mkAttempt t p] -> pending (suspend t q c) = [mkAttempt t q].
Proof.
  intros P. unfold suspend, setPending. cbn [pending]. rewrite P.
  cbn [map stepInterval]. now rewrite N.eqb_refl.
Qed.

Lemma consistent_catchBlock (t : N) (m : jsstring) (c : config) :
  result c = JNull -> pending c = [] ->
  (file c <> None -> inputMode c = image) ->
  consistent (catchBlock t m c).
Proof.
  intros R P F. split; simpl; rewrite ?R, ?P; try congruence; try assumption.
  - split; congruence.
  - split; [reflexivity|]. intros _. destruct m; discriminate.
Qed.

Lemma consistent_handle engine (e : event) (c : config) :
  consistent c -> enabled e c = true -> consistent (handle engine e c).
Proof.
  intros C En. pose proof C as [H1 H2 H3 H4 H6 H7 H5].
  destruct e; simpl in En |- *.
  - (* ClickMode *)
    apply STATES_eqb_eq in En.
    split; simpl; try assumption; try congruence.
    intros F. elim F. auto.
  - (* FileSelected *)
    assert (S : state c = IDLE \/ state c = PREVIEW).
    { unfold rendersUploadZone in En.
      destruct (state c); simpl in En; auto; discriminate. }
    assert (R : result c = JNull) by (apply no_result; destruct S; congruence).
    assert (E : error c = []) by (apply no_error; destruct S; congruence).
    assert (P : pending c = [])
      by (apply no_attempt; destruct S; congruence).
    assert (M : inputMode c = image).
    { unfold rendersUploadZone in En.
      destruct (inputMode c); auto. simpl in En.
      rewrite !andb_false_r in En. discriminate. }
    unfold handleFileSelected.
    destruct (negb (includes validTypes (type f))); [|destruct (_ <? _)];
      split; simpl; rewrite ?R, ?E, ?P; try congruence; auto;
      try (split; [reflexivity | discriminate]); split; congruence.
  - (* ClickConvert *)
    unfold rendersPreviewCard in En.
    apply andb_true_iff in En as [En F]. apply andb_true_iff in En as [S _].
    apply STATES_eqb_eq in S.
    assert (R : result c = JNull) by (apply no_result; congruence).
    assert (E : error c = []) by (apply no_error; congruence).
    assert (P : pending c = []) by (apply no_attempt; congruence).
    assert (M : inputMode c = image)
      by (apply H6; destruct (file c); [discriminate | discriminate F]).
    unfold handleConvert. destruct (file c) as [f|] eqn:Ef; [|discriminate].
    split; simpl; rewrite ?R, ?E, ?P, ?Ef; simpl; try congruence;
      split; congruence.
  - (* ClickReset *)
    assert (S : state c <> PROCESSING).
    { intros S. unfold rendersPreviewCard, rendersResultPanel,
        rendersErrorCard in En. rewrite S in En. discriminate. }
    assert (P : pending c = []) by (apply no_attempt; congruence).
    unfold handleReset. destruct (preview c);
      split; simpl; rewrite ?P; try congruence; split; congruence.
  - (* ImgError *) split; assumption.
  - (* ChangeText *) split; assumption.
  - (* ClickSubmit *)
    apply andb_true_iff in En as [En D].
    unfold rendersTextInputZone in En. apply andb_true_iff in En as [S M].
    apply STATES_eqb_eq in S.
    assert (M' : inputMode c <> image)
      by (intros M'; rewrite M' in M; discriminate).
    assert (R : result c = JNull) by (apply no_result; congruence).
    assert (E : error c = []) by (apply no_error; congruence).
    assert (P : pending c = []) by (apply no_attempt; congruence).
    unfold handleSubmit. destruct (nonEmpty (trim (text c))); [|assumption].
    split; simpl; rewrite ?R, ?E, ?P; simpl; try congruence; try tauto;
      split; congruence.
  - (* Tick *)
    unfold tick. destruct (existsb _ _); [|assumption]. split; assumption.
  - (* FetchFulfilled *)
    destruct (awaits t c) as [[|s]|] eqn:A; try discriminate.
    destruct (awaited c t _ C A) as [S P].
    unfold fetchFulfilled. rewrite (findAttempt_only c t _ P).
    split; try assumption.
    change (pending (suspend t (AwaitJson status) (clearInterval t c)))
      with (pending (suspend t (AwaitJson status) c)).
    now rewrite (suspend_only c t _ _ P).
  - (* FetchRejected *)
    destruct (awaits t c) as [[|s]|] eqn:A; try discriminate.
    destruct (awaited c t _ C A) as [S P].
    unfold fetchRejected. rewrite (findAttempt_only c t _ P).
    apply consistent_catchBlock.
    + change (result c = JNull). apply no_result; congruence.
    + exact (dropAttempt_only c t _ P).
    + exact H6.
  - (* JsonSettled *)
    destruct (awaits t c) as [[|s]|] eqn:A; try discriminate.
    destruct (awaited c t _ C A) as [S P].
    assert (R : result (dropAttempt t c) = JNull)
      by (change (result c = JNull); apply no_result; congruence).
    assert (E : error (dropAttempt t c) = [])
      by (change (error c = []); apply no_error; congruence).
    pose proof (dropAttempt_only c t _ P) as D.
    assert (F : file (dropAttempt t c) <> None ->
                inputMode (dropAttempt t c) = image) by exact H6.
    unfold jsonSettled. rewrite (findAttempt_only c t _ P).
    destruct (negb (ok s)).
    + unfold notOk.
      detail_cases;
        apply consistent_catchBlock; assumption.
    + unfold isOk. destruct body as [data|m];
        [|apply consistent_catchBlock; assumption].
      destruct (getProp data (lit "success")) as [| |v] eqn:G;
        try (apply consistent_catchBlock; assumption).
      destruct (truthyLookup (Val v));
        [|apply consistent_catchBlock; assumption].
      assert (data <> JNull) by (intros ->; discriminate).
      split; cbn [state setState setResult file result error pending];
        rewrite ?E, ?D; try congruence; try tauto; split; congruence.
Qed.

Lemma consistent_step engine (e : event) (c : config) :
  consistent c -> enabled e c = true -> consistent (step engine e c).
Proof. intros. now apply consistent_render, consistent_handle. Qed.

(** Every reachable render is consistent. *)
Lemma consistent_run engine (tr : list event) (c c' : config) :
  consistent c -> run engine tr c = Some c' -> consistent c'.
Proof.
  revert c; induction tr as [|e tr IH]; simpl; intros c C.
  - now intros [= <-].
  - destruct (enabled e c) eqn:En; [|discriminate].
    apply IH. now apply consistent_step.
Qed.

(* ================================================================== *)
(** ** Attempts and their continuations *)

Lemma awaits_findAttempt (c : config) (t : N) (p : phase) :
  awaits t c = Some p -> findAttempt t c = Some (mkAttempt t p).
Proof.
  unfold awaits. destruct (findAttempt t c) as [[i q]|] eqn:F; [|discriminate].
  intros [= <-]. unfold findAttempt in F. apply find_some in F as [_ F].
  apply N.eqb_eq in F. simpl in F. now subst.
Qed.

(** [fetchFulfilled] leaves the attempt at [await response.json()]. *)
Lemma fetchFulfilled_awaits (c : config) (t status : N) :
  awaits t c = Some AwaitFetch ->
  awaits t (fetchFulfilled t status c) = Some (AwaitJson status).
Proof.
  intros A. unfold fetchFulfilled. rewrite (awaits_findAttempt _ _ _ A).
  apply awaits_findAttempt in A. unfold awaits, findAttempt in *.
  cbn [pending suspend setPending clearInterval].
  induction (pending c) as [|[i q] l IH]; [discriminate|].
  cbn [find map stepInterval] in *.
  destruct (i =? t) eqn:E; cbn [stepInterval]; rewrite ?N.eqb_refl, ?E; auto.
Qed.

(* ================================================================== *)
(** ** Outstanding attempts and the reset *)

(** The continuation of an attempt has no guard of its own.  Composed by
    hand in an order that no run of the component produces, with
    [handleReset] called while an attempt is outstanding, it would move the
    Idle state to Done and store the payload, or move it to the error state
    and store the message.  What excludes that order is the render, as the
    lemma after this one shows. *)
Lemma late_response_after_reset_is_applied :
  let started := handleConvert (handleFileSelected png2MB init) in
  let afterReset := handleReset started in
  let lateSuccess :=
    jsonSettled v8 0 (Parsed payload) (fetchFulfilled 0 200 afterReset) in
  let lateFailure := fetchRejected 0 (lit "Failed to fetch") afterReset in
  state started = PROCESSING /\
  awaits 0 afterReset = Some AwaitFetch /\
  state afterReset = IDLE /\ result afterReset = JNull /\
  error afterReset = [] /\
  state lateSuccess = DONE /\ result lateSuccess = payload /\
  state lateFailure = ERROR /\ error lateFailure = lit "Failed to fetch".
Proof. vm_compute. repeat split. Qed.

(** In every state reachable through the rendered controls, an attempt
    that still awaits its response is the only attempt, the state is
    Processing, and no control of the page is available there, reset
    included. *)
Lemma no_reset_while_awaiting
    (engine : Engine)
    (tr : list event) (c : config) (t : N) (p : phase) :
  run engine tr init = Some c ->
  awaits t c = Some p ->
  state c = PROCESSING /\
  pending c = [mkAttempt t p] /\
  enabled ClickReset c = false /\
  (forall e, userAction e = true -> enabled e c = false).
Proof.
  intros Hrun A.
  pose proof (consistent_run _ _ _ _ consistent_init Hrun) as C.
  destruct (awaited c t p C A) as [S P].
  assert (U : forall e, userAction e = true -> enabled e c = false).
  { intros e U. destruct e; try discriminate U; simpl;
      unfold rendersModeSwitcher, rendersUploadZone, rendersPreviewCard,
        rendersResultPanel, rendersErrorCard, rendersTextInputZone;
      rewrite S; reflexivity. }
  repeat split; auto.
Qed.

Lemma no_reset_while_awaiting_witness :
  state (handleConvert (handleFileSelected png2MB init)) = PROCESSING /\
  enabled ClickReset (handleConvert (handleFileSelected png2MB init)) = false.
Proof.
  destruct (no_reset_while_awaiting v8 [FileSelected png2MB; ClickConvert]
              (handleConvert (handleFileSelected png2MB init)) 0 AwaitFetch
              eq_refl eq_refl) as (S & _ & R & _).
  split; [exact S | exact R].
Defined.

(** The continuations and the timer callback leave the input alone. *)
Lemma sameInput_refl (c : config) : sameInput c c.
Proof. repeat split. Qed.

Lemma tick_sameInput (t : N) (c : config) : sameInput c (tick t c).
Proof. unfold tick. destruct (existsb _ _); repeat split. Qed.

Lemma fetchFulfilled_sameInput (t s : N) (c : config) :
  sameInput c (fetchFulfilled t s c).
Proof.
  unfold fetchFulfilled. destruct (findAttempt t c) as [[i [|q]]|];
    repeat split.
Qed.

Lemma fetchRejected_sameInput (t : N) (m : jsstring) (c : config) :
  sameInput c (fetchRejected t m c).
Proof.
  unfold fetchRejected. destruct (findAttempt t c) as [[i [|q]]|];
    repeat split.
Qed.

Lemma jsonSettled_sameInput engine (t : N) (b : parsed) (c : config) :
  sameInput c (jsonSettled engine t b c).
Proof.
  unfold jsonSettled. destruct (findAttempt t c) as [[i [|q]]|];
    try apply sameInput_refl.
  destruct (negb (ok q)).
  - unfold notOk. detail_cases;
      repeat split.
  - unfold isOk. destruct b as [data|m]; [|repeat split].
    destruct (getProp _ _) as [| |v]; [| |destruct (truthyLookup (Val v))];
      repeat split.
Qed.

Lemma render_sameInput (c : config) : sameInput c (render c).
Proof. unfold render. destruct (rendersTextInputZone c); repeat split. Qed.

(** How one event changes whether a file is held. *)
Lemma file_step engine (e : event) (c : config) :
  enabled e c = true ->
  isSome (file (step engine e c)) =
  match e with
  | FileSelected f => isSome (file c) || accepted f
  | ClickReset => false
  | _ => isSome (file c)
  end.
Proof.
  intros En. unfold step.
  destruct (render_sameInput (handle engine e c)) as (-> & _).
  destruct e; simpl handle; try reflexivity.
  - unfold handleFileSelected, accepted.
    destruct (includes validTypes (type f)); cbn [negb andb];
      [|cbn; now rewrite orb_false_r].
    destruct (20 * 1024 * 1024 <? size f); cbn;
      [now rewrite orb_false_r | now rewrite orb_true_r].
  - simpl in En. unfold rendersPreviewCard in En.
    apply andb_true_iff in En as [_ F]. unfold handleConvert.
    destruct (file c) eqn:Ef; [|discriminate]. simpl. now rewrite Ef.
  - unfold handleSubmit. simpl in En. apply andb_true_iff in En as [En _].
    now destruct (nonEmpty (trim (text c))).
  - now destruct (tick_sameInput t c) as (-> & _).
  - now destruct (fetchFulfilled_sameInput t status c) as (-> & _).
  - now destruct (fetchRejected_sameInput t message c) as (-> & _).
  - now destruct (jsonSettled_sameInput engine t body c) as (-> & _).
Qed.

Lemma file_run engine (tr : list event) (c c' : config) :
  run engine tr c = Some c' ->
  isSome (file c') = acceptedSinceReset tr (isSome (file c)).
Proof.
  revert c; induction tr as [|e tr IH]; simpl; intros c.
  - now intros [= <-].
  - destruct (enabled e c) eqn:En; [|discriminate]. intros R.
    rewrite (IH _ R), (file_step engine e c En). now destruct e.
Qed.

(* ================================================================== *)
(** ** C2: when a selected image is held *)

(** C2, as stated, fails: the file accepted in Preview is still held when
    its conversion has resolved to Done, and when an invalid replacement
    picked in Preview has led to Failed. *)
Lemma file_still_held_in_done_and_failed :
  (exists c,
     run v8 [FileSelected png2MB; ClickConvert; FetchFulfilled 0 200;
             JsonSettled 0 (Parsed payload)] init = Some c /\
     state c = DONE /\ file c = Some png2MB) /\
  (exists c,
     run v8 [FileSelected png2MB; FileSelected pdf] init = Some c /\
     state c = ERROR /\ file c = Some png2MB).
Proof.
  split; eexists;
    (split; [vm_compute; reflexivity | split; reflexivity]).
Qed.

(** C2, amended: in every reachable state a file is held exactly when a
    valid image was selected since the last reset; only reset discards it.
    So none is held in Idle, one is held in Preview, in Processing one is
    held exactly when the attempt was started from an image, and it stays
    held in Done and Failed. *)
Theorem file_held_iff_accepted_since_reset
    (engine : Engine)
    (tr : list event) (c : config) :
  run engine tr init = Some c ->
  isSome (file c) = acceptedSinceReset tr false /\
  (state c = IDLE -> file c = None) /\
  (state c = PREVIEW -> file c <> None) /\
  (state c = PROCESSING -> (file c <> None <-> inputMode c = image)).
Proof.
  intros R.
  pose proof (consistent_run _ _ _ _ consistent_init R) as C.
  split; [exact (file_run _ _ _ _ R)|].
  split; [exact (idle_no_file c C)|].
  split; [exact (preview_file c C)|].
  intros S. split; [exact (file_image c C) | exact (processing_image c C S)].
Qed.

Lemma file_held_iff_accepted_since_reset_witness :
  let tr := [FileSelected png2MB; ClickConvert; FetchFulfilled 0 200;
             JsonSettled 0 (Parsed payload)] in
  let c := jsonSettled v8 0 (Parsed payload)
             (fetchFulfilled 0 200
                (handleConvert (handleFileSelected png2MB init))) in
  run v8 tr init = Some c /\ isSome (file c) = true /\ state c = DONE.
Proof.
  intros tr c.
  assert (R : run v8 tr init = Some c) by (vm_compute; reflexivity).
  split; [exact R|].
  split; [|vm_compute; reflexivity].
  rewrite (proj1 (file_held_iff_accepted_since_reset v8 tr c R)).
  vm_compute. reflexivity.
Defined.

(* ================================================================== *)
(** ** C3: the preview handle on replacement *)

(** What [handleFileSelected] does to the object URLs: it never revokes, and
    creates one handle when it accepts. *)
Lemma handleFileSelected_objectURLs (f : File) (c : config) :
  objectURLs (handleFileSelected f c) =
  objectURLs c ++ (if accepted f then [nextURL c] else []).
Proof.
  unfold handleFileSelected, accepted.
  destruct (includes validTypes (type f)); cbn [negb andb];
    [|cbn; now rewrite app_nil_r].
  destruct (20 * 1024 * 1024 <? size f); cbn;
    [now rewrite app_nil_r | reflexivity].
Qed.

(** C3: selecting a second valid image in Preview replaces [preview] without
    revoking the handle it held, so two handles are live; [handleReset], the
    other place where [preview] is overwritten, revokes it first.  After the
    reset the handle of the first image is still live. *)
Theorem replaced_preview_handle_stays_live :
  (exists c,
     run v8 [FileSelected png2MB; FileSelected jpeg1k] init = Some c /\
     state c = PREVIEW /\ file c = Some jpeg1k /\
     preview c = Some 1 /\ objectURLs c = [0; 1]) /\
  (exists c,
     run v8 [FileSelected png2MB; FileSelected jpeg1k; ClickReset] init
       = Some c /\
     state c = IDLE /\ preview c = None /\ objectURLs c = [0]).
Proof.
  split; eexists; (split; [vm_compute; reflexivity | repeat split]).
Qed.

(* ================================================================== *)
(** ** C4: validation of a selected file *)

(** C4: [handleFileSelected] rejects exactly the files whose type is not one
    of the five accepted ones or whose size exceeds 20 MiB.  A rejected file
    puts the component in the error state before the handler returns, with
    one of two fixed messages, and neither issues a request nor touches the
    selection; an accepted file leads to Preview holding that file. *)
Theorem handleFileSelected_validates (f : File) (c : config) :
  let rejected :=
    ~ In (type f) [lit "image/jpeg"; lit "image/png"; lit "image/webp";
                   lit "image/heic"; lit "image/bmp"]
    \/ 20 * 1024 * 1024 < size f in
  let c' := handleFileSelected f c in
  (rejected <-> state c' = ERROR) /\
  (rejected ->
     (error c' = lit "Please upload a JPG, PNG, or WebP image." \/
      error c' = lit "Image is too large. Maximum size is 20MB.") /\
     error c' <> [] /\
     requests c' = requests c /\ pending c' = pending c /\
     file c' = file c /\ preview c' = preview c /\
     objectURLs c' = objectURLs c) /\
  (~ rejected ->
     state c' = PREVIEW /\ file c' = Some f /\
     requests c' = requests c /\ pending c' = pending c).
Proof.
  intros rejected c'. subst rejected c'. unfold handleFileSelected.
  change [lit "image/jpeg"; lit "image/png"; lit "image/webp";
          lit "image/heic"; lit "image/bmp"] with validTypes.
  destruct (includes validTypes (type f)) eqn:I; cbn [negb].
  - apply includes_In in I.
    destruct (20 * 1024 * 1024 <? size f) eqn:L.
    + apply N.ltb_lt in L. cbn.
      repeat split; auto; try discriminate; try tauto.
    + apply N.ltb_ge in L. cbn.
      split; [split; [intros [H|H]; [contradiction | lia] | discriminate]|].
      split; [intros [H|H]; [contradiction | lia]|].
      intros _. repeat split.
  - assert (N : ~ In (type f) validTypes).
    { intros H. apply includes_In in H. congruence. }
    cbn. repeat split; auto; try discriminate; try tauto.
Qed.

Lemma handleFileSelected_validates_witness :
  state (handleFileSelected pdf init) = ERROR /\
  requests (handleFileSelected pdf init) = [] /\
  state (handleFileSelected png2MB init) = PREVIEW.
Proof.
  destruct (handleFileSelected_validates pdf init) as (A & B & _).
  destruct (handleFileSelected_validates png2MB init) as (_ & _ & C).
  split; [|split].
  - apply A. left. vm_compute. intuition discriminate.
  - apply B. left. vm_compute. intuition discriminate.
  - apply C. vm_compute. intros [H|H]; [|discriminate H].
    apply H. right. left. reflexivity.
Defined.

(* ================================================================== *)
(** ** C5: reset *)

(** What [handleReset] does in any configuration: it leads to Idle with no
    result, no error message, no file and no preview handle; the handle
    that was held is revoked, no other object URL is touched, and none is
    created.  When the held handle was the only live one, none is live
    afterwards. *)
Lemma handleReset_clears (c : config) :
  let c' := handleReset c in
  state c' = IDLE /\ result c' = JNull /\ error c' = [] /\
  file c' = None /\ preview c' = None /\
  (forall u, preview c = Some u -> ~ In u (objectURLs c')) /\
  (forall u, In u (objectURLs c') -> In u (objectURLs c)) /\
  ((forall u, In u (objectURLs c) -> preview c = Some u) ->
   objectURLs c' = []) /\
  requests c' = requests c /\ pending c' = pending c.
Proof.
  cbv zeta. unfold handleReset.
  destruct (preview c) as [h|] eqn:P; cbn.
  - repeat split; auto.
    + intros u [= <-] H. apply filter_In in H as [_ H].
      now rewrite N.eqb_refl in H.
    + intros u H. now apply filter_In in H.
    + intros H. induction (objectURLs c) as [|v l IH]; [reflexivity|].
      cbn. assert (E : v = h)
        by (specialize (H v (or_introl eq_refl)); congruence).
      subst v. rewrite N.eqb_refl. cbn. apply IH. intros u U.
      apply H. now right.
  - repeat split; auto; try discriminate.
    intros H. destruct (objectURLs c) as [|v l]; [reflexivity|].
    discriminate (H v (or_introl eq_refl)).
Qed.

(** C5: a reset reached after a replacement in Preview leaves a preview
    handle live.  The reset itself leads to Idle with no result, no error
    message, no file and no handle held, and revokes the handle it held;
    but the handle of the first image, which [handleFileSelected] replaced
    without revoking it, is still live afterwards. *)
Theorem reset_leaves_replaced_handle_live :
  exists c,
    run v8 [FileSelected png2MB; FileSelected jpeg1k] init = Some c /\
    state c = PREVIEW /\ preview c = Some 1 /\ objectURLs c = [0; 1] /\
    enabled ClickReset c = true /\
    state (handleReset c) = IDLE /\ result (handleReset c) = JNull /\
    error (handleReset c) = [] /\ file (handleReset c) = None /\
    preview (handleReset c) = None /\
    objectURLs (handleReset c) = [0] /\
    objectURLs (handleReset c) <> [].
Proof.
  eexists. split; [vm_compute; reflexivity|].
  vm_compute. repeat split. discriminate.
Qed.

(* ================================================================== *)
(** ** C6: result and error against the state *)

(** C6: in every reachable state a result is held exactly in Done, an
    error message exactly in the error state, and never both.  The trace
    ranges over all orders in which the controls, the timer and the
    settling promises can occur. *)
Theorem result_and_error_match_state
    (engine : Engine)
    (tr : list event) (c : config) :
  run engine tr init = Some c ->
  (result c <> JNull <-> state c = DONE) /\
  (error c <> [] <-> state c = ERROR) /\
  ~ (result c <> JNull /\ error c <> []).
Proof.
  intros R.
  pose proof (consistent_run _ _ _ _ consistent_init R) as C.
  split; [exact (result_done c C)|].
  split; [exact (error_failed c C)|].
  intros [A B]. apply (result_done c C) in A. apply (error_failed c C) in B.
  congruence.
Qed.

Lemma result_and_error_match_state_witness :
  let tr := [ClickMode text_mode; ChangeText (lit "a to b"); ClickSubmit;
             Tick 0; FetchFulfilled 0 200; JsonSettled 0 (Parsed payload)] in
  let c := jsonSettled v8 0 (Parsed payload)
             (fetchFulfilled 0 200
                (tick 0 (handleTextConvert (lit "a to b")
                           (setInputMode text_mode init)))) in
  run v8 tr init = Some c /\ state c = DONE /\ result c <> JNull.
Proof.
  intros tr c.
  assert (R : run v8 tr init = Some c) by (vm_compute; reflexivity).
  split; [exact R|].
  assert (S : state c = DONE) by (vm_compute; reflexivity).
  split; [exact S|].
  apply (proj1 (result_and_error_match_state v8 tr c R)). exact S.
Defined.

(** Reading a property of an object does not throw. *)
Lemma assoc_defined (key : jsstring) (props : list (jsstring * json)) :
  assoc key props <> Threw.
Proof.
  induction props as [|[k v] rest IH]; simpl; [discriminate|].
  destruct (str_eqb key k); [discriminate | exact IH].
Qed.

(* ================================================================== *)
(** ** C7: a response with a success status *)

(** C7, as stated, fails for a body that is JSON [null]: it has no
    [success] flag, so the flag is not truthy, yet the message shown is not
    the retry text but the engine's for the failed read. *)
Lemma null_payload_shows_engine_message :
  let c := fetchFulfilled 0 200
             (handleConvert (handleFileSelected png2MB init)) in
  let c' := jsonSettled v8 0 (Parsed JNull) c in
  awaits 0 c = Some (AwaitJson 200) /\ ok 200 = true /\
  truthyLookup (getProp JNull (lit "success")) = false /\
  state c' = ERROR /\
  error c' = lit "Cannot read properties of null (reading 'success')" /\
  error c' <> lit "Conversion failed. Please try again.".
Proof. vm_compute. repeat split. discriminate. Qed.

(** C7, amended: when the response of an attempt has a success status and
    its body parses to [data], the continuation looks only at
    [data.success].  A truthy flag gives Done with [data] itself as the
    result.  When [data] is not [null], a falsy or missing flag gives the
    error state with the fixed retry message.  When [data] is [null] the
    read of the flag throws, and the error state shows the engine's message
    for it, or the fallback text if that message is empty.  The result is
    left as it was in both error cases. *)
Theorem success_status_resolution
    (engine : Engine)
    (c : config) (t status : N) (data : json) :
  awaits t c = Some (AwaitJson status) ->
  ok status = true ->
  let c' := jsonSettled engine t (Parsed data) c in
  (truthyLookup (getProp data (lit "success")) = true ->
   state c' = DONE /\ result c' = data /\ error c' = error c) /\
  (data <> JNull ->
   truthyLookup (getProp data (lit "success")) = false ->
   state c' = ERROR /\
   error c' = lit "Conversion failed. Please try again." /\
   result c' = result c) /\
  (data = JNull ->
   state c' = ERROR /\
   error c' = (if nonEmpty (nullReadMessage engine (lit "success"))
               then nullReadMessage engine (lit "success")
               else lit "Something went wrong. Please try again.") /\
   result c' = result c).
Proof.
  intros A O c'. subst c'. unfold jsonSettled.
  rewrite (awaits_findAttempt _ _ _ A), O. cbn [negb]. unfold isOk.
  destruct (getProp data (lit "success")) as [| |v] eqn:G.
  - destruct data; try discriminate G.
    + repeat split; try discriminate; congruence.
    + cbn [getProp] in G. now elim (assoc_defined _ _ G).
  - assert (data <> JNull) by (intros ->; discriminate G).
    repeat split; try discriminate; congruence.
  - assert (data <> JNull) by (intros ->; discriminate G).
    destruct (truthyLookup (Val v));
      repeat split; try discriminate; congruence.
Qed.

Lemma success_status_resolution_witness :
  let c := fetchFulfilled 0 200
             (handleConvert (handleFileSelected png2MB init)) in
  state (jsonSettled v8 0 (Parsed payload) c) = DONE /\
  result (jsonSettled v8 0 (Parsed payload) c) = payload /\
  state (jsonSettled v8 0 (Parsed (JObj [(lit "success", JBool false)])) c)
    = ERROR /\
  state (jsonSettled v8 0 (Parsed JNull) c) = ERROR.
Proof.
  intros c.
  assert (A : awaits 0 c = Some (AwaitJson 200)) by (vm_compute; reflexivity).
  destruct (success_status_resolution v8 c 0 200 payload A eq_refl)
    as [T _].
  destruct (success_status_resolution v8 c 0 200
              (JObj [(lit "success", JBool false)]) A eq_refl)
    as (_ & F & _).
  destruct (success_status_resolution v8 c 0 200 JNull A eq_refl)
    as (_ & _ & Z).
  destruct (T eq_refl) as (S & R & _).
  split; [exact S|]. split; [exact R|].
  split; [apply F; [discriminate | reflexivity] | apply Z; reflexivity].
Defined.

(* ================================================================== *)
(** ** C8: a response with a non-success status *)

(** C8, as stated, fails for a [detail] that is present but falsy: with
    body [{"detail": ""}] and status 500 the message is the generic one with
    the status code, not the detail.  A [detail] that is an empty array is
    truthy and converts to the empty string, and the message is then the
    last-resort text of the [catch] block.  A body that is [null] has no
    detail, and the message is the engine's for the failed read, without
    the status code. *)
Lemma falsy_detail_gives_generic_message :
  let c := fetchFulfilled 0 500
             (handleConvert (handleFileSelected png2MB init)) in
  awaits 0 c = Some (AwaitJson 500) /\
  getProp (JObj [(lit "detail", JStr [])]) (lit "detail") = Val (JStr []) /\
  error (jsonSettled v8 0 (Parsed (JObj [(lit "detail", JStr [])])) c)
    = lit "Server error (500)" /\
  error (jsonSettled v8 0 (Parsed (JObj [(lit "detail", JArr [])])) c)
    = lit "Something went wrong. Please try again." /\
  error (jsonSettled v8 0 (Parsed JNull) c)
    = lit "Cannot read properties of null (reading 'detail')".
Proof. vm_compute. repeat split. Qed.

(** C8, amended: a response with a non-success status always resolves to
    the error state, the result untouched.  The message is the [detail] of
    the body when that is a non-empty string; it is the generic message with
    the status code when the body does not parse, or parses to a value other
    than [null] whose [detail] is missing or falsy. *)
Theorem non_success_status_resolution
    (engine : Engine)
    (c : config) (t status : N) :
  awaits t c = Some (AwaitJson status) ->
  ok status = false ->
  let resolved body := jsonSettled engine t body c in
  (forall body,
     state (resolved body) = ERROR /\ result (resolved body) = result c /\
     error (resolved body) <> []) /\
  (forall errData detail,
     getProp errData (lit "detail") = Val (JStr detail) -> detail <> [] ->
     error (resolved (Parsed errData)) = detail) /\
  (forall message,
     error (resolved (SyntaxError message))
     = lit "Server error (" ++ decimal status ++ lit ")") /\
  (forall errData,
     errData <> JNull ->
     truthyLookup (getProp errData (lit "detail")) = false ->
     error (resolved (Parsed errData))
     = lit "Server error (" ++ decimal status ++ lit ")").
Proof.
  intros A O resolved. subst resolved. cbv beta. unfold jsonSettled.
  rewrite (awaits_findAttempt _ _ _ A), O. cbn [negb]. unfold notOk.
  repeat split.
  - detail_cases; reflexivity.
  - detail_cases; reflexivity.
  - detail_cases;
      apply catchBlock_error.
  - intros errData detail G D. rewrite G. cbn [truthy toString].
    destruct detail; [congruence | reflexivity].
  - intros errData Hn T.
    destruct errData; try reflexivity; try congruence.
    cbn [getProp] in *. pose proof (assoc_defined (lit "detail") props) as Hd.
    destruct (assoc (lit "detail") props) as [| |d];
      [congruence | reflexivity |].
    cbn [truthyLookup] in T. now rewrite T.
Qed.

Lemma non_success_status_resolution_witness :
  let c := fetchFulfilled 0 500
             (handleTextConvert (lit "a to b") (setInputMode text_mode init)) in
  let oom := JObj [(lit "detail", JStr (lit "OOM"))] in
  state (jsonSettled v8 0 (Parsed oom) c) = ERROR /\
  error (jsonSettled v8 0 (Parsed oom) c) = lit "OOM".
Proof.
  intros c oom.
  assert (A : awaits 0 c = Some (AwaitJson 500)) by (vm_compute; reflexivity).
  destruct (non_success_status_resolution v8 c 0 500 A eq_refl)
    as (S & D & _).
  split; [apply S|].
  apply D; [reflexivity | discriminate].
Defined.

(** A truthy [detail] that cannot be converted to a string, an object with
    a key [toString], makes [new Error] throw; the message shown is then the
    engine's for the failed conversion. *)
Lemma unconvertible_detail_shows_engine_message :
  let c := fetchFulfilled 0 500
             (handleConvert (handleFileSelected png2MB init)) in
  let detail := JObj [(lit "toString", JNum (lit "1"))] in
  toString detail = None /\
  toString (JArr [JStr (lit "a"); detail]) = None /\
  toString (JArr [JNull; JStr (lit "a"); JArr [JBool true; JObj []]])
    = Some (lit ",a,true,[object Object]") /\
  error (jsonSettled v8 0 (Parsed (JObj [(lit "detail", detail)])) c)
    = lit "Cannot convert object to primitive value".
Proof. vm_compute. repeat split. Qed.

(* ================================================================== *)
(** ** C9: blank text *)

(** The requests an event adds to the ones already issued. *)
Lemma requests_step engine (e : event) (c : config) :
  requests (step engine e c) =
  requests c ++
  match e with
  | ClickConvert =>
      match file c with Some f => [PostConvert f] | None => [] end
  | ClickSubmit =>
      if nonEmpty (trim (text c)) then [PostConvertText (text c)] else []
  | _ => []
  end.
Proof.
  unfold step.
  destruct (render_sameInput (handle engine e c)) as (_ & _ & _ & ->).
  destruct e; cbn [handle]; rewrite ?app_nil_r; try reflexivity.
  - unfold handleFileSelected.
    destruct (negb _); [reflexivity|]. now destruct (_ <? _).
  - unfold handleConvert. destruct (file c); [reflexivity|].
    now rewrite app_nil_r.
  - unfold handleReset. now destruct (preview c).
  - unfold handleSubmit. destruct (nonEmpty _); [reflexivity|].
    now rewrite app_nil_r.
  - now destruct (tick_sameInput t c) as (_ & _ & _ & ->).
  - now destruct (fetchFulfilled_sameInput t status c) as (_ & _ & _ & ->).
  - now destruct (fetchRejected_sameInput t message c) as (_ & _ & _ & ->).
  - now destruct (jsonSettled_sameInput engine t body c) as (_ & _ & _ & ->).
Qed.

Lemma submitted_text_run engine (tr : list event) (c c' : config) :
  (forall s, In (PostConvertText s) (requests c) -> trim s <> []) ->
  run engine tr c = Some c' ->
  forall s, In (PostConvertText s) (requests c') -> trim s <> [].
Proof.
  revert c; induction tr as [|e tr IH]; simpl; intros c H.
  - now intros [= <-].
  - destruct (enabled e c); [|discriminate]. apply IH.
    intros s. rewrite requests_step, in_app_iff. intros [I|I]; [now apply H|].
    destruct e; try contradiction.
    + destruct (file c); [destruct I as [I|[]]; discriminate | contradiction].
    + destruct (nonEmpty (trim (text c))) eqn:E; [|contradiction].
      destruct I as [[= <-]|[]]. now apply nonEmpty_true.
Qed.

(** C9: with a text that is empty or all white space, [handleSubmit] does
    nothing, whatever callback it was given, and the button is disabled so
    that the click cannot occur; [handleSubmit] calls the callback only with
    a text that [trim] leaves non-empty; and in every reachable state each
    text request that was issued carries such a text. *)
Theorem blank_text_is_never_submitted :
  (forall (c : config) (onTextSubmit : jsstring -> config -> config),
     forallb isWhiteSpace (text c) = true ->
     handleSubmit onTextSubmit c = c /\
     disabled c = true /\ enabled ClickSubmit c = false) /\
  (forall (c : config) (onTextSubmit : jsstring -> config -> config),
     (trim (text c) = [] /\ handleSubmit onTextSubmit c = c) \/
     (trim (text c) <> [] /\
      handleSubmit onTextSubmit c = onTextSubmit (text c) c)) /\
  (forall (engine : Engine) (tr : list event) (c : config) (s : jsstring),
     run engine tr init = Some c ->
     In (PostConvertText s) (requests c) ->
     trim s <> [] /\ forallb isWhiteSpace s = false).
Proof.
  split; [|split].
  - intros c f W. apply trim_whitespace in W.
    unfold handleSubmit, disabled. cbn [enabled]. unfold disabled.
    rewrite W. cbn. rewrite andb_false_r. auto.
  - intros c f. unfold handleSubmit.
    destruct (trim (text c)) eqn:E; [left | right]; cbn; auto.
    split; [discriminate | reflexivity].
  - intros engine tr c s R I.
    assert (T : trim s <> []).
    { now apply (submitted_text_run engine tr init c); [intros ? []| |]. }
    split; [exact T|].
    destruct (forallb isWhiteSpace s) eqn:W; [|reflexivity].
    apply trim_whitespace in W. contradiction.
Qed.

Lemma blank_text_is_never_submitted_witness :
  let c := setText [32; 9; 160; 10] (setInputMode text_mode init) in
  forallb isWhiteSpace (text c) = true /\
  handleSubmit handleTextConvert c = c /\ enabled ClickSubmit c = false.
Proof.
  intros c.
  assert (W : forallb isWhiteSpace (text c) = true) by reflexivity.
  destruct (proj1 blank_text_is_never_submitted c handleTextConvert W)
    as (A & _ & B).
  split; [exact W|]. split; [exact A | exact B].
Defined.

(* ================================================================== *)
(** ** C10: convert without a file *)

(** C10: called while no file is held, [handleConvert] returns at once: the
    whole configuration is unchanged, so the state is the same, no interval
    was set and no request was issued. *)
Theorem handleConvert_without_file (c : config) :
  file c = None ->
  handleConvert c = c /\
  state (handleConvert c) = state c /\
  intervals (handleConvert c) = intervals c /\
  requests (handleConvert c) = requests c /\
  pending (handleConvert c) = pending c.
Proof.
  intros F. unfold handleConvert. rewrite F. repeat split.
Qed.

Lemma handleConvert_without_file_witness :
  file init = None /\ handleConvert init = init.
Proof.
  split; [reflexivity|].
  apply (handleConvert_without_file init). reflexivity.
Defined.

(* ================================================================== *)
(** ** The resources of the rendered workflow *)

Lemma coherent_init : coherent init.
Proof.
  split; cbn; try reflexivity; try discriminate; try contradiction.
Qed.

Lemma coherent_render (c : config) : coherent c -> coherent (render c).
Proof.
  unfold render. destruct (rendersTextInputZone c); [auto|].
  intros [H1 H2 H3 H4 H5 H6 H7 H8 H9]. split; assumption.
Qed.

Lemma accepted_checks (f : File) :
  includes validTypes (type f) = true ->
  (20 * 1024 * 1024 <? size f) = false -> accepted f = true.
Proof. unfold accepted. now intros -> ->. Qed.

Lemma clear_only_timer (t : N) : filter (fun v => negb (v =? t)) [t] = [].
Proof. cbn. now rewrite N.eqb_refl. Qed.

Lemma succ_length {A} (n : N) (l : list A) (x : A) :
  n = N.of_nat (List.length l) ->
  N.succ n = N.of_nat (List.length (l ++ [x])).
Proof. intros ->. rewrite length_app. cbn. lia. Qed.

Lemma coherent_catchBlock (t : N) (m : jsstring) (c : config) :
  isSome (preview c) = isSome (file c) ->
  (forall f, file c = Some f -> accepted f = true) ->
  (forall u, preview c = Some u -> In u (objectURLs c)) ->
  processingStep c <= lastStep ->
  filter (fun v => negb (v =? t)) (intervals c) = [] ->
  pending c = [] ->
  (forall f, In (PostConvert f) (requests c) -> accepted f = true) ->
  nextInterval c = N.of_nat (List.length (requests c)) ->
  coherent (catchBlock t m c).
Proof.
  intros H1 H2 H3 H4 H5 P H7 H9.
  split; cbn [catchBlock setState setError clearInterval state preview file
               objectURLs processingStep intervals pending result requests
               nextInterval]; try assumption; try discriminate.
  now rewrite P.
Qed.

Lemma coherent_handle engine (e : event) (c : config) :
  consistent c -> coherent c -> enabled e c = true ->
  coherent (handle engine e c).
Proof.
  intros C K En. pose proof K as [H1 H2 H3 H4 H5 H6 H7 H8 H9].
  destruct e; cbn [handle enabled] in En |- *.
  - (* ClickMode *) split; assumption.
  - (* FileSelected *)
    assert (S : state c = IDLE \/ state c = PREVIEW).
    { unfold rendersUploadZone in En.
      destruct (state c); simpl in En; auto; discriminate. }
    unfold handleFileSelected.
    destruct (includes validTypes (type f)) eqn:I; cbn [negb];
      [destruct (20 * 1024 * 1024 <? size f) eqn:L|].
    + split; cbn; try assumption; discriminate.
    + pose proof (accepted_checks f I L) as A.
      split; cbn; try assumption; try reflexivity;
        try (destruct S; congruence).
      intros u [= <-]. apply in_or_app. right. now left.
    + split; cbn; try assumption; discriminate.
  - (* ClickConvert *)
    unfold rendersPreviewCard in En.
    apply andb_true_iff in En as [En F]. apply andb_true_iff in En as [S _].
    apply STATES_eqb_eq in S.
    assert (P : pending c = []) by (apply no_attempt; congruence).
    rewrite P in H5.
    unfold handleConvert. destruct (file c) as [f|] eqn:Ef; [|discriminate].
    split; cbn; rewrite ?P, ?H5, ?Ef; cbn; try assumption; try reflexivity;
      try discriminate.
    + intros g G. apply in_app_or in G as [G|[[= <-]|[]]]; eauto.
    + intros _. now exists (requests c), (PostConvert f).
    + now apply succ_length.
  - (* ClickReset *)
    assert (S : state c <> PROCESSING).
    { intros S. unfold rendersPreviewCard, rendersResultPanel,
        rendersErrorCard in En. rewrite S in En. discriminate. }
    unfold handleReset. destruct (preview c);
      split; cbn; try assumption; try reflexivity; try discriminate.
  - (* ImgError *) split; assumption.
  - (* ChangeText *) split; assumption.
  - (* ClickSubmit *)
    apply andb_true_iff in En as [En D].
    unfold rendersTextInputZone in En. apply andb_true_iff in En as [S _].
    apply STATES_eqb_eq in S.
    assert (P : pending c = []) by (apply no_attempt; congruence).
    pose proof (idle_no_file c C S) as Ef.
    rewrite P in H5.
    unfold handleSubmit. destruct (nonEmpty (trim (text c))); [|assumption].
    split; cbn; rewrite ?P, ?H5, ?Ef; cbn; try assumption; try reflexivity;
      try discriminate.
    + now rewrite H1, Ef.
    + intros g G. apply in_app_or in G as [G|[G|[]]]; [auto | discriminate].
    + intros _. exists (requests c), (PostConvertText (text c)).
      split; [reflexivity | now exists (text c)].
    + now apply succ_length.
  - (* Tick *)
    unfold tick. destruct (existsb _ _); [|assumption].
    split; try assumption.
    unfold lastStep in *. cbn [processingStep setProcessingStep].
    destruct (processingStep c <? _) eqn:L;
      [apply N.ltb_lt in L; lia | assumption].
  - (* FetchFulfilled *)
    destruct (awaits t c) as [[|s]|] eqn:A; try discriminate.
    destruct (awaited c t _ C A) as [S P].
    unfold fetchFulfilled. rewrite (findAttempt_only c t _ P).
    rewrite P in H5.
    split; try assumption.
    change (intervals (suspend t (AwaitJson status) (clearInterval t c)))
      with (filter (fun v => negb (v =? t)) (intervals c)).
    change (pending (suspend t (AwaitJson status) (clearInterval t c)))
      with (pending (suspend t (AwaitJson status) c)).
    now rewrite (suspend_only c t _ _ P), H5, clear_only_timer.
  - (* FetchRejected *)
    destruct (awaits t c) as [[|s]|] eqn:A; try discriminate.
    destruct (awaited c t _ C A) as [S P].
    unfold fetchRejected. rewrite (findAttempt_only c t _ P).
    rewrite P in H5.
    apply coherent_catchBlock; try assumption.
    + change (intervals (dropAttempt t c)) with (intervals c).
      now rewrite H5, clear_only_timer.
    + exact (dropAttempt_only c t _ P).
  - (* JsonSettled *)
    destruct (awaits t c) as [[|s]|] eqn:A; try discriminate.
    destruct (awaited c t _ C A) as [S P].
    pose proof (dropAttempt_only c t _ P) as D.
    rewrite P in H5.
    assert (T : filter (fun v => negb (v =? t))
                  (intervals (dropAttempt t c)) = []).
    { change (intervals (dropAttempt t c)) with (intervals c).
      now rewrite H5. }
    unfold jsonSettled. rewrite (findAttempt_only c t _ P).
    destruct (negb (ok s)).
    + unfold notOk.
      detail_cases;
        apply coherent_catchBlock; assumption.
    + unfold isOk. destruct body as [data|m];
        [|apply coherent_catchBlock; assumption].
      destruct (getProp data (lit "success")) as [| |v] eqn:G;
        try (apply coherent_catchBlock; assumption).
      destruct (truthyLookup (Val v)) eqn:Tv;
        [|apply coherent_catchBlock; assumption].
      split; cbn [state setState setResult file preview objectURLs
                    processingStep intervals pending result requests
                    nextInterval]; try assumption; try discriminate.
      * change (intervals (dropAttempt t c)) with (intervals c).
        now rewrite D, H5.
      * intros _. destruct data; try discriminate G.
        exists props. cbn [getProp] in G. now rewrite G.
Qed.

Lemma coherent_run engine (tr : list event) (c c' : config) :
  consistent c -> coherent c -> run engine tr c = Some c' -> coherent c'.
Proof.
  revert c; induction tr as [|e tr IH]; simpl; intros c C K.
  - now intros [= <-].
  - destruct (enabled e c) eqn:En; [|discriminate].
    apply IH.
    + now apply consistent_step.
    + now apply coherent_render, coherent_handle.
Qed.

(** Both invariants hold in every reachable state. *)
Lemma reachable_invariants engine (tr : list event) (c : config) :
  run engine tr init = Some c -> consistent c /\ coherent c.
Proof.
  intros R. split.
  - exact (consistent_run _ _ _ _ consistent_init R).
  - exact (coherent_run _ _ _ _ consistent_init coherent_init R).
Qed.

Lemma accepted_iff (f : File) :
  accepted f = true <->
  In (type f) validTypes /\ size f <= 20 * 1024 * 1024.
Proof.
  unfold accepted. rewrite andb_true_iff, includes_In, negb_true_iff,
    N.ltb_ge. reflexivity.
Qed.

(* ================================================================== *)
(** ** The progress timer and its cursor *)

(** X1: in every reachable state an interval timer is set exactly while an
    attempt is suspended at its [await fetch]; there is at most one, and
    none once the response or the failure has arrived. *)
Theorem timer_set_iff_awaiting_fetch
    (engine : Engine)
    (tr : list event) (c : config) :
  run engine tr init = Some c ->
  (forall t, In t (intervals c) <-> awaits t c = Some AwaitFetch) /\
  (List.length (intervals c) <= 1)%nat /\
  (state c <> PROCESSING -> intervals c = []).
Proof.
  intros R. destruct (reachable_invariants _ _ _ R) as [C K].
  pose proof (one_timer c K) as T. pose proof (one_attempt c C) as O.
  unfold awaits, findAttempt.
  destruct (pending c) as [|[i p] [|b l]]; [| |contradiction]; rewrite T.
  - repeat split; cbn; auto; try contradiction; discriminate.
  - destruct p; cbn [find stepInterval at_].
    + repeat split; cbn; auto; try congruence.
      * intros [->|[]]. now rewrite N.eqb_refl.
      * destruct (i =? t) eqn:E; [|discriminate].
        apply N.eqb_eq in E. now left.
    + repeat split; cbn; auto; try contradiction.
      destruct (i =? t); discriminate.
Qed.

Lemma timer_set_iff_awaiting_fetch_witness :
  intervals (handleConvert (handleFileSelected png2MB init)) = [0] /\
  awaits 0 (handleConvert (handleFileSelected png2MB init)) = Some AwaitFetch.
Proof.
  assert (R : run v8 [FileSelected png2MB; ClickConvert] init
              = Some (handleConvert (handleFileSelected png2MB init)))
    by (vm_compute; reflexivity).
  destruct (timer_set_iff_awaiting_fetch v8 _ _ R) as (T & _).
  split; [vm_compute; reflexivity|].
  apply (proj1 (T 0)). vm_compute. now left.
Defined.

(** X2: in every reachable state the cursor is an index of
    [PROCESSING_STEPS], so the message shown while processing exists. *)
Theorem cursor_within_steps
    (engine : Engine)
    (tr : list event) (c : config) :
  run engine tr init = Some c ->
  processingStep c <= 4 /\
  exists message,
    nth_error PROCESSING_STEPS (N.to_nat (processingStep c)) = Some message.
Proof.
  intros R. destruct (reachable_invariants _ _ _ R) as [_ K].
  pose proof (cursor_bound c K) as B.
  change lastStep with 4 in B. split; [exact B|].
  destruct (nth_error PROCESSING_STEPS (N.to_nat (processingStep c)))
    as [m|] eqn:E; [now exists m|].
  apply nth_error_None in E. cbn in E. lia.
Qed.

Lemma cursor_within_steps_witness :
  exists c,
    run v8 [ClickMode text_mode; ChangeText (lit "a"); ClickSubmit;
            Tick 0; Tick 0; Tick 0; Tick 0; Tick 0; Tick 0] init = Some c /\
    processingStep c <= 4.
Proof.
  eexists. split; [vm_compute; reflexivity|].
  refine (proj1 (cursor_within_steps v8
                   [ClickMode text_mode; ChangeText (lit "a"); ClickSubmit;
                    Tick 0; Tick 0; Tick 0; Tick 0; Tick 0; Tick 0] _ _)).
  vm_compute. reflexivity.
Defined.

Lemma ticks_advance (t : N) (n : nat) (c : config) :
  In t (intervals c) -> processingStep c <= 4 ->
  processingStep (Nat.iter n (tick t) c)
  = N.min (processingStep c + N.of_nat n) 4 /\
  intervals (Nat.iter n (tick t) c) = intervals c.
Proof.
  intros I B. induction n as [|n [IHs IHi]].
  - change (Nat.iter 0 (tick t) c) with c. split; [lia | reflexivity].
  - change (Nat.iter (S n) (tick t) c)
      with (tick t (Nat.iter n (tick t) c)).
    assert (E : existsb (N.eqb t) (intervals (Nat.iter n (tick t) c)) = true).
    { rewrite IHi. apply existsb_exists. exists t.
      split; [assumption | apply N.eqb_refl]. }
    unfold tick at 1 3. rewrite E.
    cbn [processingStep setProcessingStep intervals].
    split; [|exact IHi]. rewrite IHs.
    change (N.of_nat (Datatypes.length PROCESSING_STEPS) - 1) with 4.
    destruct (N.min (processingStep c + N.of_nat n) 4 <? 4) eqn:L;
      [apply N.ltb_lt in L | apply N.ltb_ge in L]; lia.
Qed.

(** X3: an attempt starts with the cursor at 0, whatever it was, and the
    n-th tick of the attempt's timer leaves it at min(n, 4): one step per
    tick, stalling on the last message. *)
Theorem cursor_after_ticks (c : config) (n : nat) :
  (forall txt,
     processingStep
       (Nat.iter n (tick (nextInterval c)) (handleTextConvert txt c))
     = N.min (N.of_nat n) 4) /\
  (forall f,
     file c = Some f ->
     processingStep (Nat.iter n (tick (nextInterval c)) (handleConvert c))
     = N.min (N.of_nat n) 4).
Proof.
  split.
  - intros txt.
    apply (ticks_advance (nextInterval c) n (handleTextConvert txt c)).
    + cbn. apply in_or_app. right. now left.
    + cbn. lia.
  - intros f F.
    assert (I : In (nextInterval c) (intervals (handleConvert c)) /\
                processingStep (handleConvert c) = 0).
    { unfold handleConvert. rewrite F. cbn.
      split; [apply in_or_app; right; now left | reflexivity]. }
    destruct I as [I Z].
    rewrite (proj1 (ticks_advance _ n _ I ltac:(rewrite Z; lia))), Z.
    reflexivity.
Qed.

(* ================================================================== *)
(** ** Files, previews and requests *)

(** X4: in every reachable state the file held, and every file that was
    uploaded, passed validation: its type is one of the five accepted ones
    and its size is at most 20 MiB. *)
Theorem held_and_uploaded_files_are_valid
    (engine : Engine)
    (tr : list event) (c : config) (f : File) :
  run engine tr init = Some c ->
  file c = Some f \/ In (PostConvert f) (requests c) ->
  In (type f) [lit "image/jpeg"; lit "image/png"; lit "image/webp";
               lit "image/heic"; lit "image/bmp"] /\
  size f <= 20 * 1024 * 1024.
Proof.
  intros R H. destruct (reachable_invariants _ _ _ R) as [_ K].
  apply accepted_iff.
  destruct H as [H|H];
    [exact (file_accepted c K f H) | exact (uploads_accepted c K f H)].
Qed.

Lemma held_and_uploaded_files_are_valid_witness :
  size png2MB <= 20 * 1024 * 1024.
Proof.
  refine (proj2 (held_and_uploaded_files_are_valid v8
                   [FileSelected png2MB; ClickConvert]
                   (handleConvert (handleFileSelected png2MB init))
                   png2MB _ _)).
  - vm_compute. reflexivity.
  - left. vm_compute. reflexivity.
Defined.

Lemma requests_count engine (tr : list event) (c c' : config) :
  run engine tr c = Some c' ->
  List.length (requests c')
  = (List.length (requests c) + List.length (filter startsAttempt tr))%nat.
Proof.
  revert c; induction tr as [|e tr IH]; cbn [run]; intros c.
  - intros [= <-]. cbn. lia.
  - destruct (enabled e c) eqn:En; [|discriminate]. intros R.
    rewrite (IH _ R), requests_step, length_app.
    destruct e; cbn [startsAttempt filter List.length]; try lia.
    + cbn [enabled] in En. unfold rendersPreviewCard in En.
      apply andb_true_iff in En as [_ F].
      destruct (file c); [cbn; lia | discriminate].
    + cbn [enabled] in En. apply andb_true_iff in En as [_ D].
      unfold disabled in D. apply negb_true_iff, negb_false_iff in D.
      rewrite D. cbn. lia.
Qed.

(** X5: each use of a convert control issues exactly one request and sets
    exactly one timer; nothing else issues a request, so a failed attempt is
    never retried. *)
Theorem one_request_per_attempt
    (engine : Engine)
    (tr : list event) (c : config) :
  run engine tr init = Some c ->
  List.length (requests c) = List.length (filter startsAttempt tr) /\
  nextInterval c = N.of_nat (List.length (filter startsAttempt tr)).
Proof.
  intros R. destruct (reachable_invariants _ _ _ R) as [_ K].
  pose proof (requests_count _ _ _ _ R) as L. cbn in L.
  split; [exact L|]. rewrite (timer_per_request c K). now rewrite L.
Qed.

Lemma one_request_per_attempt_witness :
  exists c,
    run v8 [FileSelected png2MB; ClickConvert; Tick 0;
            FetchRejected 0 (lit "Failed to fetch"); ClickReset;
            FileSelected png2MB; ClickConvert] init = Some c /\
    List.length (requests c) = 2%nat.
Proof.
  eexists. split; [vm_compute; reflexivity|].
  refine (proj1 (one_request_per_attempt v8
                   [FileSelected png2MB; ClickConvert; Tick 0;
                    FetchRejected 0 (lit "Failed to fetch"); ClickReset;
                    FileSelected png2MB; ClickConvert] _ _)).
  vm_compute. reflexivity.
Defined.

(** X6: in every reachable state a preview handle is held exactly when a
    file is, and the handle held is live: the URL given to the image was
    created and has not been revoked. *)
Theorem preview_handle_is_live
    (engine : Engine)
    (tr : list event) (c : config) :
  run engine tr init = Some c ->
  isSome (preview c) = isSome (file c) /\
  (forall u, preview c = Some u -> In u (objectURLs c)).
Proof.
  intros R. destruct (reachable_invariants _ _ _ R) as [_ K].
  split; [exact (preview_with_file c K) | exact (preview_live c K)].
Qed.

Lemma preview_handle_is_live_witness :
  exists c,
    run v8 [FileSelected png2MB; FileSelected jpeg1k; ImgError] init
      = Some c /\
    preview c = Some 1 /\ In 1 (objectURLs c).
Proof.
  eexists. split; [vm_compute; reflexivity|].
  split; [reflexivity|].
  refine (proj2 (preview_handle_is_live v8
                   [FileSelected png2MB; FileSelected jpeg1k; ImgError]
                   _ _) 1 _).
  - vm_compute. reflexivity.
  - reflexivity.
Defined.

(** X7: while an attempt started from an image is processing, the request
    in flight, the last one issued, carries the file that is held; when no
    file is held it is a text request. *)
Theorem request_in_flight_carries_held_file
    (engine : Engine)
    (tr : list event) (c : config) :
  run engine tr init = Some c ->
  state c = PROCESSING ->
  exists earlier r,
    requests c = earlier ++ [r] /\
    match file c with
    | Some f => r = PostConvert f
    | None => exists s, r = PostConvertText s
    end.
Proof.
  intros R S. destruct (reachable_invariants _ _ _ R) as [_ K].
  exact (in_flight c K S).
Qed.

Lemma request_in_flight_carries_held_file_witness :
  exists earlier r,
    requests (handleConvert (handleFileSelected png2MB init))
      = earlier ++ [r] /\
    r = PostConvert png2MB.
Proof.
  refine (request_in_flight_carries_held_file v8
            [FileSelected png2MB; ClickConvert]
            (handleConvert (handleFileSelected png2MB init)) _ _).
  - vm_compute. reflexivity.
  - reflexivity.
Defined.

Lemma done_reset_enabled engine (tr : list event) (c : config) :
  run engine tr init = Some c -> state c = DONE -> enabled ClickReset c = true.
Proof.
  intros R S. destruct (reachable_invariants _ _ _ R) as [_ K].
  destruct (done_payload c K S) as (props & E & T).
  cbn [enabled]. unfold rendersResultPanel. rewrite S, E. cbn.
  now rewrite orb_true_r.
Qed.

(** X8: in every reachable Done state the result is a JSON object whose
    [success] is truthy, so the result panel is rendered and its reset is
    available. *)
Theorem done_holds_successful_object
    (engine : Engine)
    (tr : list event) (c : config) :
  run engine tr init = Some c ->
  state c = DONE ->
  (exists props,
     result c = JObj props /\
     truthyLookup (assoc (lit "success") props) = true) /\
  rendersResultPanel c = true /\
  enabled ClickReset c = true.
Proof.
  intros R S. destruct (reachable_invariants _ _ _ R) as [_ K].
  destruct (done_payload c K S) as (props & E & T).
  assert (P : rendersResultPanel c = true)
    by (unfold rendersResultPanel; now rewrite S, E).
  split; [now exists props|]. split; [exact P|].
  cbn [enabled]. rewrite P. now rewrite orb_true_r.
Qed.

Lemma done_holds_successful_object_witness :
  let c := jsonSettled v8 0 (Parsed payload)
             (fetchFulfilled 0 200
                (handleConvert (handleFileSelected png2MB init))) in
  rendersResultPanel c = true.
Proof.
  intros c.
  refine (proj1 (proj2 (done_holds_successful_object v8
            [FileSelected png2MB; ClickConvert; FetchFulfilled 0 200;
             JsonSettled 0 (Parsed payload)] c _ _))).
  - vm_compute. reflexivity.
  - vm_compute. reflexivity.
Defined.

(* ================================================================== *)
(** ** The state machine *)

Lemma state_render (c : config) : state (render c) = state c.
Proof. unfold render. now destruct (rendersTextInputZone c). Qed.

(** Where each event can occur and where it leads. *)
Lemma step_state
    (engine : Engine)
    (tr : list event) (c : config) (e : event) :
  run engine tr init = Some c ->
  enabled e c = true ->
  let s' := state (step engine e c) in
  match e with
  | ClickMode _ | ChangeText _ => state c = IDLE /\ s' = IDLE
  | FileSelected f =>
      (state c = IDLE \/ state c = PREVIEW) /\
      s' = if accepted f then PREVIEW else ERROR
  | ClickConvert => state c = PREVIEW /\ s' = PROCESSING
  | ClickSubmit => state c = IDLE /\ s' = PROCESSING
  | ClickReset =>
      (state c = PREVIEW \/ state c = DONE \/ state c = ERROR) /\ s' = IDLE
  | ImgError => state c = PREVIEW /\ s' = PREVIEW
  | Tick _ | FetchFulfilled _ _ => state c = PROCESSING /\ s' = PROCESSING
  | FetchRejected _ _ => state c = PROCESSING /\ s' = ERROR
  | JsonSettled _ _ => state c = PROCESSING /\ (s' = DONE \/ s' = ERROR)
  end.
Proof.
  intros R En s'. subst s'. unfold step. rewrite state_render.
  destruct (reachable_invariants _ _ _ R) as [C K].
  destruct e; cbn [enabled handle] in En |- *.
  - apply STATES_eqb_eq in En. now split.
  - split.
    + unfold rendersUploadZone in En.
      destruct (state c); simpl in En; auto; discriminate.
    + unfold handleFileSelected, accepted.
      destruct (includes validTypes (type f)); cbn [negb andb];
        [|reflexivity].
      now destruct (20 * 1024 * 1024 <? size f).
  - unfold rendersPreviewCard in En.
    apply andb_true_iff in En as [En F]. apply andb_true_iff in En as [S _].
    apply STATES_eqb_eq in S. split; [exact S|].
    unfold handleConvert. now destruct (file c).
  - split; [|reflexivity].
    unfold rendersPreviewCard, rendersResultPanel, rendersErrorCard in En.
    destruct (state c); simpl in En; auto; discriminate.
  - apply andb_true_iff in En as [En _]. unfold rendersPreviewCard in En.
    apply andb_true_iff in En as [En _]. apply andb_true_iff in En as [S _].
    apply STATES_eqb_eq in S. now split.
  - unfold rendersTextInputZone in En. apply andb_true_iff in En as [S _].
    apply STATES_eqb_eq in S. now split.
  - apply andb_true_iff in En as [En D].
    unfold rendersTextInputZone in En. apply andb_true_iff in En as [S _].
    apply STATES_eqb_eq in S. split; [exact S|].
    unfold disabled in D. apply negb_true_iff, negb_false_iff in D.
    unfold handleSubmit. now rewrite D.
  - assert (S : state c = PROCESSING).
    { pose proof (one_timer c K) as T. pose proof (one_attempt c C) as O.
      apply existsb_exists in En as (x & I & _). rewrite T in I.
      destruct (pending c) as [|[i [|s]] [|b l]]; try contradiction.
      exact O. }
    split; [exact S|]. unfold tick. now destruct (existsb _ _).
  - destruct (awaits t c) as [[|s]|] eqn:A; try discriminate.
    destruct (awaited c t _ C A) as [S P]. split; [exact S|].
    unfold fetchFulfilled. now rewrite (findAttempt_only c t _ P).
  - destruct (awaits t c) as [[|s]|] eqn:A; try discriminate.
    destruct (awaited c t _ C A) as [S P]. split; [exact S|].
    unfold fetchRejected. now rewrite (findAttempt_only c t _ P).
  - destruct (awaits t c) as [[|s]|] eqn:A; try discriminate.
    destruct (awaited c t _ C A) as [S P]. split; [exact S|].
    unfold jsonSettled. rewrite (findAttempt_only c t _ P).
    destruct (negb (ok s)).
    + right. unfold notOk.
      detail_cases;
        reflexivity.
    + unfold isOk. destruct body as [data|m]; [|now right].
      destruct (getProp _ _) as [| |v]; [now right | now right |].
      destruct (truthyLookup (Val v)); [now left | now right].
Qed.

(** X9: the transition table.  For an event that can occur in a reachable
    state, the state it occurs in and the state it leads to are the ones
    listed for that event. *)
Theorem trigger_table
    (engine : Engine)
    (tr : list event) (c : config) (e : event) :
  run engine tr init = Some c ->
  enabled e c = true ->
  let s' := state (step engine e c) in
  match e with
  | ClickMode _ | ChangeText _ => state c = IDLE /\ s' = IDLE
  | FileSelected f =>
      (state c = IDLE \/ state c = PREVIEW) /\
      s' = if accepted f then PREVIEW else ERROR
  | ClickConvert => state c = PREVIEW /\ s' = PROCESSING
  | ClickSubmit => state c = IDLE /\ s' = PROCESSING
  | ClickReset =>
      (state c = PREVIEW \/ state c = DONE \/ state c = ERROR) /\ s' = IDLE
  | ImgError => state c = PREVIEW /\ s' = PREVIEW
  | Tick _ | FetchFulfilled _ _ => state c = PROCESSING /\ s' = PROCESSING
  | FetchRejected _ _ => state c = PROCESSING /\ s' = ERROR
  | JsonSettled _ _ => state c = PROCESSING /\ (s' = DONE \/ s' = ERROR)
  end.
Proof. exact (step_state engine tr c e). Qed.

Lemma trigger_table_witness :
  state (step v8 (FileSelected pdf) (handleFileSelected png2MB init)) = ERROR.
Proof.
  refine (proj2 (trigger_table v8 [FileSelected png2MB]
                   (handleFileSelected png2MB init) (FileSelected pdf)
                   _ _)).
  - vm_compute. reflexivity.
  - vm_compute. reflexivity.
Defined.

(** X10: Done and Failed are left only by reset, and reset is available
    there: in a reachable Done or Failed state the one event that can occur
    is the reset, which leads to Idle. *)
Theorem terminal_states_exit_by_reset
    (engine : Engine)
    (tr : list event) (c : config) :
  run engine tr init = Some c ->
  state c = DONE \/ state c = ERROR ->
  enabled ClickReset c = true /\
  state (step engine ClickReset c) = IDLE /\
  (forall e, enabled e c = true -> e = ClickReset).
Proof.
  intros R S.
  assert (En : enabled ClickReset c = true).
  { destruct S as [S|S].
    - apply (done_reset_enabled _ _ _ R S).
    - cbn [enabled]. unfold rendersErrorCard. rewrite S.
      now rewrite orb_true_r. }
  split; [exact En|].
  split; [exact (proj2 (step_state _ _ _ _ R En))|].
  intros e Ee. pose proof (step_state _ _ _ _ R Ee) as T. cbv zeta in T.
  destruct e; try reflexivity; destruct T as [T _]; exfalso;
    destruct S as [S|S]; rewrite S in T;
    (discriminate T || (destruct T as [T|T]; discriminate T)).
Qed.

Lemma terminal_states_exit_by_reset_witness :
  let c := handleFileSelected pdf init in
  enabled ClickReset c = true /\ state (step v8 ClickReset c) = IDLE.
Proof.
  intros c.
  destruct (terminal_states_exit_by_reset v8 [FileSelected pdf] c)
    as (A & B & _).
  - vm_compute. reflexivity.
  - right. reflexivity.
  - split; [exact A | exact B].
Defined.

(** X11: the edges of the state machine are exactly those of [transition]:
    an event that can occur in a reachable state follows an edge, and every
    edge is followed by some event in some reachable state.  In particular
    there is no edge from Done or Failed to Processing, and none from
    Processing back to Idle or Preview. *)
Theorem transition_edges
    (engine : Engine) (a b : STATES) :
  transition a b = true <->
  exists tr c e,
    run engine tr init = Some c /\ enabled e c = true /\
    state c = a /\ state (step engine e c) = b.
Proof.
  split.
  - pose (sel := [FileSelected png2MB]).
    pose (proc := [FileSelected png2MB; ClickConvert]).
    pose (body := [FileSelected png2MB; ClickConvert; FetchFulfilled 0 200]).
    destruct a, b; try discriminate; intros _.
    + exists [], init, (ClickMode text_mode). now vm_compute.
    + exists [], init, (FileSelected png2MB). now vm_compute.
    + exists [ClickMode text_mode; ChangeText (lit "a")].
      eexists. exists ClickSubmit.
      split; [vm_compute; reflexivity | now vm_compute].
    + exists [], init, (FileSelected pdf). now vm_compute.
    + exists sel. eexists. exists ClickReset.
      split; [vm_compute; reflexivity | now vm_compute].
    + exists sel. eexists. exists ImgError.
      split; [vm_compute; reflexivity | now vm_compute].
    + exists sel. eexists. exists ClickConvert.
      split; [vm_compute; reflexivity | now vm_compute].
    + exists sel. eexists. exists (FileSelected pdf).
      split; [vm_compute; reflexivity | now vm_compute].
    + exists proc. eexists. exists (Tick 0).
      split; [vm_compute; reflexivity | now vm_compute].
    + exists body. eexists. exists (JsonSettled 0 (Parsed payload)).
      split; [vm_compute; reflexivity | now vm_compute].
    + exists proc. eexists. exists (FetchRejected 0 []).
      split; [vm_compute; reflexivity | now vm_compute].
    + exists (body ++ [JsonSettled 0 (Parsed payload)]).
      eexists. exists ClickReset.
      split; [vm_compute; reflexivity | now vm_compute].
    + exists [FileSelected pdf]. eexists. exists ClickReset.
      split; [vm_compute; reflexivity | now vm_compute].
  - intros (tr & c & e & R & En & <- & <-).
    pose proof (step_state _ _ _ _ R En) as T. cbv zeta in T.
    destruct e; try destruct (accepted f);
      destruct T as [T ->] || destruct T as [T [-> | ->]];
      repeat (destruct T as [T|T]); rewrite T; reflexivity.
Qed.

(** X12: in a reachable state, the arrival of the body, or the failure of
    the fetch, ends the attempt: the state is Done or Failed, nothing is
    left pending, no timer is left set, and no request was added. *)
Theorem settling_ends_the_attempt
    (engine : Engine)
    (tr : list event) (c : config) (e : event) :
  run engine tr init = Some c ->
  enabled e c = true ->
  (exists t body, e = JsonSettled t body) \/
  (exists t message, e = FetchRejected t message) ->
  let c' := step engine e c in
  (state c' = DONE \/ state c' = ERROR) /\
  pending c' = [] /\ intervals c' = [] /\ requests c' = requests c.
Proof.
  intros R En Ev c'.
  assert (R' : run engine (tr ++ [e]) init = Some c').
  { clear Ev. subst c'. revert R. generalize init.
    induction tr as [|x tr IH]; cbn [run app]; intros c0.
    - intros [= ->]. now rewrite En.
    - destruct (enabled x c0); [apply IH | discriminate]. }
  destruct (reachable_invariants _ _ _ R') as [C K].
  pose proof (step_state _ _ _ _ R En) as T. cbv zeta in T. fold c' in T.
  assert (S : state c' = DONE \/ state c' = ERROR).
  { destruct Ev as [(t & body & ->)|(t & m & ->)];
      [exact (proj2 T) | right; exact (proj2 T)]. }
  assert (P : pending c' = [])
    by (apply no_attempt; [exact C | destruct S; congruence]).
  split; [exact S|]. split; [exact P|].
  split; [rewrite (one_timer c' K), P; reflexivity|].
  subst c'. rewrite requests_step.
  destruct Ev as [(t & body & ->)|(t & m & ->)]; apply app_nil_r.
Qed.

Lemma settling_ends_the_attempt_witness :
  let c := handleConvert (handleFileSelected png2MB init) in
  state (step v8 (FetchRejected 0 []) c) = ERROR /\
  intervals (step v8 (FetchRejected 0 []) c) = [].
Proof.
  intros c.
  destruct (settling_ends_the_attempt v8 [FileSelected png2MB; ClickConvert]
              c (FetchRejected 0 [])) as (S & _ & I & _).
  - vm_compute. reflexivity.
  - vm_compute. reflexivity.
  - right. now exists 0, [].
  - split; [|exact I]. destruct S as [S|S]; [discriminate S | exact S].
Defined.

(* ================================================================== *)
(** ** Failures without a usable response *)

Lemma dropAttempt_awaits (t : N) (c : config) :
  awaits t (dropAttempt t c) = None.
Proof.
  unfold awaits, findAttempt, dropAttempt. cbn [pending setPending].
  induction (pending c) as [|a l IH]; [reflexivity|].
  cbn [filter]. destruct (stepInterval a =? t) eqn:E; cbn [negb]; [exact IH|].
  cbn [find]. now rewrite E.
Qed.

Lemma clearInterval_not_set (t : N) (c : config) :
  ~ In t (intervals (clearInterval t c)).
Proof.
  cbn. intros H. apply filter_In in H as [_ H].
  now rewrite N.eqb_refl in H.
Qed.

(** X13: when the fetch of an attempt fails without a response, the attempt
    ends in the error state with the failure's message, or with the fixed
    fallback text when that message is empty; the result is untouched, the
    attempt's timer is cleared, the attempt is over, and no request is
    issued again. *)
Theorem transport_failure (c : config) (t : N) (message : jsstring) :
  awaits t c = Some AwaitFetch ->
  let c' := fetchRejected t message c in
  state c' = ERROR /\
  error c' = (if nonEmpty message then message
              else lit "Something went wrong. Please try again.") /\
  error c' <> [] /\
  result c' = result c /\
  awaits t c' = None /\
  ~ In t (intervals c') /\
  requests c' = requests c.
Proof.
  intros A c'. subst c'. unfold fetchRejected.
  rewrite (awaits_findAttempt _ _ _ A).
  repeat split.
  - apply catchBlock_error.
  - exact (dropAttempt_awaits t c).
  - exact (clearInterval_not_set t (dropAttempt t c)).
Qed.

Lemma transport_failure_witness :
  let c := handleConvert (handleFileSelected png2MB init) in
  error (fetchRejected 0 (lit "Failed to fetch") c) = lit "Failed to fetch" /\
  error (fetchRejected 0 [] c)
    = lit "Something went wrong. Please try again.".
Proof.
  intros c.
  assert (A : awaits 0 c = Some AwaitFetch) by (vm_compute; reflexivity).
  split.
  - exact (proj1 (proj2 (transport_failure c 0 (lit "Failed to fetch") A))).
  - exact (proj1 (proj2 (transport_failure c 0 [] A))).
Defined.

(** X14: when a response has a success status but its body does not parse
    as JSON, the attempt ends in the error state with the parser's message,
    or the fixed fallback text when that is empty; the status code is not
    mentioned and no result is stored. *)
Theorem unparseable_success_body
    (engine : Engine)
    (c : config) (t status : N) (message : jsstring) :
  awaits t c = Some (AwaitJson status) ->
  ok status = true ->
  let c' := jsonSettled engine t (SyntaxError message) c in
  state c' = ERROR /\
  error c' = (if nonEmpty message then message
              else lit "Something went wrong. Please try again.") /\
  result c' = result c /\
  awaits t c' = None.
Proof.
  intros A O c'. subst c'. unfold jsonSettled.
  rewrite (awaits_findAttempt _ _ _ A), O. cbn [negb isOk].
  repeat split. exact (dropAttempt_awaits t c).
Qed.

Lemma unparseable_success_body_witness :
  let c := fetchFulfilled 0 200
             (handleConvert (handleFileSelected png2MB init)) in
  state (jsonSettled v8 0 (SyntaxError (lit "Unexpected token <")) c)
    = ERROR /\
  error (jsonSettled v8 0 (SyntaxError (lit "Unexpected token <")) c)
    = lit "Unexpected token <".
Proof.
  intros c.
  assert (A : awaits 0 c = Some (AwaitJson 200)) by (vm_compute; reflexivity).
  destruct (unparseable_success_body v8 c 0 200 (lit "Unexpected token <")
              A eq_refl) as (S & E & _).
  split; [exact S | exact E].
Defined.

(* ================================================================== *)
(** ** Reset, mode and text *)

(** X15: a second reset changes nothing, and after a reset the Convert
    handler does nothing: no state of the component survives a reset that a
    further reset or convert would act on. *)
Theorem handleReset_idempotent (c : config) :
  handleReset (handleReset c) = handleReset c /\
  handleConvert (handleReset c) = handleReset c.
Proof.
  unfold handleReset, handleConvert. now destruct (preview c).
Qed.

Lemma inputMode_handle engine (e : event) (c : config) :
  (forall m, e <> ClickMode m) ->
  inputMode (handle engine e c) = inputMode c.
Proof.
  intros H. destruct e; cbn [handle]; try reflexivity.
  - now elim (H m).
  - unfold handleFileSelected.
    destruct (negb _); [reflexivity|]. now destruct (_ <? _).
  - unfold handleConvert. now destruct (file c).
  - unfold handleReset. now destruct (preview c).
  - unfold handleSubmit. now destruct (nonEmpty _).
  - unfold tick. now destruct (existsb _ _).
  - unfold fetchFulfilled. now destruct (findAttempt t c) as [[i [|q]]|].
  - unfold fetchRejected. now destruct (findAttempt t c) as [[i [|q]]|].
  - unfold jsonSettled.
    destruct (findAttempt t c) as [[i [|q]]|]; try reflexivity.
    destruct (negb (ok q)).
    + unfold notOk.
      detail_cases;
        reflexivity.
    + unfold isOk. destruct body as [data|m]; [|reflexivity].
      destruct (getProp _ _) as [| |v]; [| |destruct (truthyLookup (Val v))];
        reflexivity.
Qed.

(** X16: the input mode changes only through a mode button, and those are
    available only in Idle; once input has been given the mode is fixed
    until the next reset. *)
Theorem mode_changes_only_in_idle
    (engine : Engine)
    (c : config) (e : event) :
  enabled e c = true ->
  inputMode (step engine e c) <> inputMode c ->
  state c = IDLE /\ e = ClickMode (inputMode (step engine e c)).
Proof.
  intros En D.
  assert (M : inputMode (step engine e c)
              = inputMode (handle engine e c)).
  { unfold step, render. now destruct (rendersTextInputZone _). }
  destruct e as [m| | | | | | | | | |];
    try (elim D; rewrite M; apply inputMode_handle; discriminate).
  split; [now apply STATES_eqb_eq in En|].
  now rewrite M.
Qed.

Lemma mode_changes_only_in_idle_witness :
  state init = IDLE.
Proof.
  refine (proj1 (mode_changes_only_in_idle v8 init (ClickMode text_mode)
                   _ _)).
  - reflexivity.
  - vm_compute. discriminate.
Defined.

(** X17: the Convert Text button sends the text of the textarea as it is:
    [trim] is applied only to decide whether to send, so white space around
    the text is part of the request body. *)
Theorem text_is_sent_untrimmed
    (engine : Engine) (c : config) :
  enabled ClickSubmit c = true ->
  let c' := step engine ClickSubmit c in
  requests c' = requests c ++ [PostConvertText (text c)] /\
  state c' = PROCESSING /\ processingStep c' = 0 /\ text c' = [].
Proof.
  intros En c'. subst c'. cbn [enabled] in En.
  apply andb_true_iff in En as [_ D].
  unfold disabled in D. apply negb_true_iff, negb_false_iff in D.
  rewrite requests_step, D. unfold step. cbn [handle]. unfold handleSubmit.
  rewrite D. repeat split.
Qed.

Lemma text_is_sent_untrimmed_witness :
  let c := setText ([32] ++ lit "a to b" ++ [10])
             (setInputMode text_mode init) in
  requests (step v8 ClickSubmit c)
  = [PostConvertText ([32] ++ lit "a to b" ++ [10])].
Proof.
  intros c.
  refine (proj1 (text_is_sent_untrimmed v8 c _)).
  vm_compute. reflexivity.
Defined.

(* ================================================================== *)
(** ** The size shown for a file *)

Lemma nearest_tenth (num den : N) :
  0 < den ->
  let n := (20 * num + den) / (2 * den) in
  2 * den * n <= 20 * num + den /\ 20 * num + den < 2 * den * (n + 1).
Proof.
  intros D n. subst n.
  pose proof (N.Div0.mul_div_le (20 * num + den) (2 * den)).
  pose proof (N.mul_succ_div_gt (20 * num + den) (2 * den) ltac:(lia)).
  lia.
Qed.

(** X18: [formatFileSize] shows sizes below 1024 in bytes, below 1024 KiB
    in KB and all others in MB, with one decimal; the tenths shown are the
    ones nearest to the exact quotient (the larger on a tie), so the value
    shown is within 0.05 of the size in that unit; and a file that passed
    validation is shown as at most 20.0 MB. *)
Theorem formatFileSize_units (bytes : N) :
  (bytes < 1024 -> formatFileSize bytes = decimal bytes ++ lit " B") /\
  (1024 <= bytes < 1024 * 1024 ->
   exists n,
     formatFileSize bytes
     = (decimal (n / 10) ++ lit "." ++ decimal (n mod 10)) ++ lit " KB" /\
     10 <= n <= 10240 /\
     2 * (1024 * n) <= 2 * (10 * bytes) + 1024 /\
     2 * (10 * bytes) < 2 * (1024 * n) + 1024) /\
  (1024 * 1024 <= bytes ->
   exists n,
     formatFileSize bytes
     = (decimal (n / 10) ++ lit "." ++ decimal (n mod 10)) ++ lit " MB" /\
     10 <= n /\
     2 * (1048576 * n) <= 2 * (10 * bytes) + 1048576 /\
     2 * (10 * bytes) < 2 * (1048576 * n) + 1048576 /\
     (bytes <= 20 * 1024 * 1024 -> n <= 200)).
Proof.
  unfold formatFileSize.
  split; [|split].
  - intros L. apply N.ltb_lt in L. now rewrite L.
  - intros [L U].
    apply N.ltb_ge in L. apply N.ltb_lt in U. rewrite L, U.
    apply N.ltb_ge in L. apply N.ltb_lt in U.
    exists ((20 * bytes + 1024) / (2 * 1024)).
    split; [reflexivity|].
    pose proof (nearest_tenth bytes 1024 ltac:(lia)) as H. cbv zeta in H.
    lia.
  - intros L.
    assert (L1 : (bytes <? 1024) = false) by (apply N.ltb_ge; lia).
    assert (L2 : (bytes <? 1024 * 1024) = false) by (apply N.ltb_ge; lia).
    rewrite L1, L2.
    exists ((20 * bytes + 1024 * 1024) / (2 * (1024 * 1024))).
    split; [reflexivity|].
    pose proof (nearest_tenth bytes (1024 * 1024) ltac:(lia)) as H.
    cbv zeta in H. lia.
Qed.

Lemma formatFileSize_units_witness :
  (exists n,
     formatFileSize 2097152
     = (decimal (n / 10) ++ lit "." ++ decimal (n mod 10)) ++ lit " MB" /\
     n <= 200) /\
  formatFileSize 1000 = decimal 1000 ++ lit " B".
Proof.
  split.
  - destruct (proj2 (proj2 (formatFileSize_units 2097152)))
      as (n & E & _ & _ & _ & B); [vm_compute; discriminate|].
    exists n. split; [exact E|]. apply B. vm_compute. discriminate.
  - apply (proj1 (formatFileSize_units 1000)). reflexivity.
Defined.

(** X19: just below 1 MiB the unit does not change although the rounded
    value reaches 1024: every size from 1048525 to 1048575 bytes is shown
    as "1024.0 KB", and 1048576 bytes as "1.0 MB". *)
Theorem formatFileSize_rounds_up_to_1024_KB (bytes : N) :
  1048525 <= bytes < 1048576 ->
  formatFileSize bytes = lit "1024.0 KB" /\
  formatFileSize 1048576 = lit "1.0 MB".
Proof.
  intros [L U]. split; [|vm_compute; reflexivity].
  unfold formatFileSize, toFixed1.
  assert (L1 : (bytes <? 1024) = false) by (apply N.ltb_ge; lia).
  assert (L2 : (bytes <? 1024 * 1024) = true) by (apply N.ltb_lt; lia).
  rewrite L1, L2.
  assert (E : (20 * bytes + 1024) / (2 * 1024) = 10240).
  { symmetry. apply (N.div_unique _ _ _ (20 * bytes + 1024 - 2048 * 10240));
      lia. }
  cbv zeta. rewrite E. vm_compute. reflexivity.
Qed.

Lemma formatFileSize_rounds_up_to_1024_KB_witness :
  formatFileSize 1048575 = lit "1024.0 KB".
Proof.
  refine (proj1 (formatFileSize_rounds_up_to_1024_KB 1048575 _)).
  split; [vm_compute; discriminate | reflexivity].
Defined.

(* ================================================================== *)
(** ** No dead ends *)

Lemma reset_leads_to_idle engine (c : config) :
  enabled ClickReset c = true ->
  run engine [ClickReset] c = Some (step engine ClickReset c) /\
  state (step engine ClickReset c) = IDLE.
Proof.
  intros En. cbn [run]. rewrite En. split; [reflexivity|].
  unfold step. now rewrite state_render.
Qed.

Lemma error_reset_enabled (c : config) :
  state c = ERROR -> enabled ClickReset c = true.
Proof.
  intros S. cbn [enabled]. unfold rendersErrorCard. rewrite S.
  now rewrite orb_true_r.
Qed.

(** X20: Idle can be reached again from every reachable state, by a reset,
    preceded while processing by the settling of the promise the attempt
    awaits; at most two events are needed. *)
Theorem idle_can_be_reached_again
    (engine : Engine)
    (tr : list event) (c : config) :
  run engine tr init = Some c ->
  exists tr' c',
    (List.length tr' <= 2)%nat /\
    run engine tr' c = Some c' /\ state c' = IDLE.
Proof.
  intros R. destruct (reachable_invariants _ _ _ R) as [C K].
  assert (settle : forall e,
             enabled e c = true ->
             state (step engine e c) = ERROR ->
             exists tr' c',
               (List.length tr' <= 2)%nat /\
               run engine tr' c = Some c' /\ state c' = IDLE).
  { intros e En S.
    destruct (reset_leads_to_idle engine _
                (error_reset_enabled _ S)) as [R1 S1].
    exists [e; ClickReset]. eexists. split; [cbn; lia|].
    split; [|exact S1]. cbn [run]. rewrite En. exact R1. }
  assert (reset : enabled ClickReset c = true ->
             exists tr' c',
               (List.length tr' <= 2)%nat /\
               run engine tr' c = Some c' /\ state c' = IDLE).
  { intros En.
    destruct (reset_leads_to_idle engine c En) as [R1 S1].
    exists [ClickReset]. eexists. split; [cbn; lia|].
    split; [exact R1 | exact S1]. }
  destruct (state c) eqn:S.
  - exists [], c. split; [cbn; lia|]. now split.
  - apply reset. cbn [enabled]. unfold rendersPreviewCard. rewrite S.
    pose proof (preview_file c C S) as F.
    rewrite (file_image c C F). now destruct (file c).
  - pose proof (one_attempt c C) as O.
    destruct (pending c) as [|[t p] [|b l]] eqn:P;
      [congruence | | contradiction].
    pose proof (findAttempt_only c t p P) as A.
    destruct p as [|status].
    + assert (En : enabled (FetchRejected t []) c = true)
        by (cbn [enabled]; unfold awaits; now rewrite A).
      apply (settle _ En). exact (proj2 (step_state _ _ _ _ R En)).
    + assert (En : enabled (JsonSettled t (SyntaxError [])) c = true)
        by (cbn [enabled]; unfold awaits; now rewrite A).
      apply (settle _ En). unfold step. rewrite state_render.
      cbn [handle]. unfold jsonSettled. rewrite A.
      now destruct (negb (ok status)).
  - apply reset. exact (done_reset_enabled _ _ _ R S).
  - apply reset. exact (error_reset_enabled _ S).
Qed.

Lemma idle_can_be_reached_again_witness :
  exists tr' c',
    (List.length tr' <= 2)%nat /\
    run v8 tr' (handleConvert (handleFileSelected png2MB init)) = Some c' /\
    state c' = IDLE.
Proof.
  refine (idle_can_be_reached_again v8 [FileSelected png2MB; ClickConvert]
            (handleConvert (handleFileSelected png2MB init)) _).
  vm_compute. reflexivity.
Defined.

(* ================================================================== *)
(** ** C1: no response arrives after a reset *)





